(** * chat-thread-component: view-state model of the chat transcript

    Shallow embedding of
    [packages/chat-component/src/components/chat-thread-component.ts].

    The component is a LitElement: its methods read and write the
    fields of [this], talk to the browser (clipboard, timers, event
    dispatch, scrolling) and build lit templates.  Methods are embedded
    as computations in a state-and-exception monad over the component
    fields and the browser state; templates are embedded as trees. *)

From Stdlib Require Import ZArith List String Bool Lia.
Import ListNotations.

Set Warnings "-register-all".

Local Open Scope string_scope.
Local Open Scope list_scope.
Local Open Scope Z_scope.

(** ** JavaScript values that may be missing *)

Inductive Js (A : Type) : Type :=
| undefined : Js A
| defined (a : A) : Js A.

Arguments undefined {A}.
Arguments defined {A} a.

(** [Array.prototype.at]: a negative index counts from the end; an index
    outside the array yields [undefined]. *)
Definition at_ {A : Type} (l : list A) (i : Z) : Js A :=
  let k := if i <? 0 then Z.of_nat (List.length l) + i else i in
  if (k <? 0) || (Z.of_nat (List.length l) <=? k) then undefined
  else match nth_error l (Z.to_nat k) with
       | Some a => defined a
       | None => undefined
       end.

(** Optional chaining [o?.rest]: a missing [o] short-circuits the rest of
    the chain to [undefined]. *)
Definition optChain {A B : Type} (o : Js A) (rest : A -> Js B) : Js B :=
  match o with
  | undefined => undefined
  | defined a => rest a
  end.

(** Truthiness of an object reference. *)
Definition truthy {A : Type} (o : Js A) : bool :=
  match o with
  | undefined => false
  | defined _ => true
  end.

(** [a && a.length > 0] for an optional array. *)
Definition presentAndNonEmpty {A : Type} (o : Js (list A)) : bool :=
  match o with
  | undefined => false
  | defined l => 0 <? Z.of_nat (List.length l)
  end.

(** ** Imported constants

    [globalConfig] lives in [../config/global-config.js] and the icons in
    [public/svg]; the component only reads them, so they are parameters
    of the development. *)

Record GlobalConfig : Type := {
  COPY_RESPONSE_BUTTON_LABEL_TEXT : string;
  COPIED_SUCCESSFULLY_MESSAGE : string;
  CITATIONS_LABEL : string;
  USER_IS_BOT : string
}.

(** ** Entry model *)

Record ChatMessageText : Type := {
  value : string;
  followingSteps : Js (list string)
}.

Record ChatError : Type := { message : string }.

Module ChatActionButton.
Record t : Type := {
  label : string;
  svgIcon : string;
  isDisabled : bool;
  id : string
}.
End ChatActionButton.

Inductive ScrollBehavior : Type := smooth | instant | auto_behavior.
Inductive ScrollLogicalPosition : Type := start | center | end_ | nearest.

Record ScrollIntoViewOptions : Type := {
  behavior : ScrollBehavior;
  block : ScrollLogicalPosition
}.

(** An element of the render root, named by its [id] attribute. *)
Record HTMLElement : Type := { elementId : string }.

Inductive JsError : Type := TypeError (what : string).

(** How a call ends: it returns a value or throws. *)
Inductive Completion (A : Type) : Type :=
| Normal (a : A)
| Throw (e : JsError).

Arguments Normal {A} a.
Arguments Throw {A} e.

(** The only function ever handed to [setTimeout] is the arrow function of
    [debounceScrollIntoView]. *)
Inductive Callback : Type := scrollFooterIntoView.

Record Timer : Type := {
  handle : Z;
  due : Z;
  callback : Callback
}.

(** One step up the ancestor chain of the host element: to the parent
    node, or out of a shadow root to its host. *)
Inductive Hop : Type := toParent | outOfShadowRoot.

Section ChatThread.

(** [Citation] is declared in the package's global types and is only
    passed through to the [citation-list] sub-widget. *)
Context {Citation : Type}.

Variable globalConfig : GlobalConfig.
Variables iconSuccess iconCopyToClipboard iconQuestion : string.

Record ChatThreadEntry : Type := {
  isUserMessage : bool;
  text : list ChatMessageText;
  citations : Js (list Citation);
  followupQuestions : Js (list string);
  error : Js ChatError;
  timestamp : string
}.

(** *** Events *)

Inductive Detail : Type :=
| noDetail
| actionButtonDetail (id : string) (chatThreadEntry : ChatThreadEntry)
| followupDetail (question : string)
| citationDetail (citation : Citation).

Record Event : Type := {
  type : string;
  detail : Detail;
  bubbles : bool;
  composed : bool
}.

(** *** The component's reactive fields *)

Record ChatThreadComponent : Type := {
  chatThread : list ChatThreadEntry;
  actionButtons : list ChatActionButton.t;
  isDisabled : bool;
  isProcessingResponse : bool;
  isResponseCopied : bool
}.

(** *** The browser around the component *)

Inductive Effect : Type :=
| PreventDefault (ev : Event)
| DispatchEvent (ev : Event)
| ClipboardWriteText (data : Js string)
| ScrollIntoView (el : HTMLElement) (opts : ScrollIntoViewOptions)
| UncaughtError (e : JsError).

Record Browser : Type := {
  clock : Z;
  nextHandle : Z;
  pending : list Timer;
  chatFooter : Js HTMLElement;   (* result of @query('#chat-list-footer') *)
  trace : list Effect            (* oldest first *)
}.

Record St : Type := {
  this : ChatThreadComponent;
  browser : Browser
}.

(** *** State-and-exception monad *)

Definition M (A : Type) : Type := St -> Completion A * St.

Definition ret {A : Type} (a : A) : M A := fun st => (Normal a, st).

Definition throw {A : Type} (e : JsError) : M A := fun st => (Throw e, st).

Definition bind {A B : Type} (m : M A) (k : A -> M B) : M B :=
  fun st =>
    match m st with
    | (Normal a, st') => k a st'
    | (Throw e, st') => (Throw e, st')
    end.

Notation "x <- m ;; k" := (bind m (fun x => k))
  (at level 61, m at next level, right associativity).
Notation "m ;; k" := (bind m (fun _ => k))
  (at level 61, right associativity).

Fixpoint mapM {A B : Type} (f : A -> M B) (l : list A) : M (list B) :=
  match l with
  | [] => ret []
  | x :: r => y <- f x ;; ys <- mapM f r ;; ret (y :: ys)
  end.

Fixpoint forEachM {A : Type} (f : A -> M unit) (l : list A) : M unit :=
  match l with
  | [] => ret tt
  | x :: r => f x ;; forEachM f r
  end.

Fixpoint repeatM (k : nat) (m : M unit) : M unit :=
  match k with
  | O => ret tt
  | S k' => m ;; repeatM k' m
  end.

Definition getThis : M ChatThreadComponent := fun st => (Normal (this st), st).

Definition getBrowser : M Browser := fun st => (Normal (browser st), st).

Definition putBrowser (b : Browser) : M unit :=
  fun st => (Normal tt, {| this := this st; browser := b |}).

Definition perform (e : Effect) : M unit :=
  fun st =>
    let b := browser st in
    (Normal tt,
     {| this := this st;
        browser := {| clock := clock b; nextHandle := nextHandle b;
                      pending := pending b; chatFooter := chatFooter b;
                      trace := trace b ++ [e] |} |}).

Definition setIsResponseCopied (v : bool) : M unit :=
  fun st =>
    let c := this st in
    (Normal tt,
     {| this := {| chatThread := chatThread c;
                   actionButtons := actionButtons c;
                   isDisabled := isDisabled c;
                   isProcessingResponse := isProcessingResponse c;
                   isResponseCopied := v |};
        browser := browser st |}).

(** *** Browser primitives *)

(** [event.preventDefault()] *)
Definition preventDefault (ev : Event) : M unit := perform (PreventDefault ev).

(** [this.dispatchEvent(ev)] *)
Definition dispatchEvent (ev : Event) : M unit := perform (DispatchEvent ev).

(** [navigator.clipboard.writeText(data)]: the call is issued and the
    promise it returns is dropped. *)
Definition writeText (data : Js string) : M unit :=
  perform (ClipboardWriteText data).

(** [clearTimeout(h)]: forget the pending timer whose handle is [h], if
    there is one. *)
Definition clearTimeout (h : Z) : M unit :=
  b <- getBrowser ;;
  putBrowser {| clock := clock b; nextHandle := nextHandle b;
                pending := filter (fun t => negb (handle t =? h)) (pending b);
                chatFooter := chatFooter b; trace := trace b |}.

(** [setTimeout(cb, delay)]: arm a fresh timer and return its handle. *)
Definition setTimeout (cb : Callback) (delay : Z) : M Z :=
  b <- getBrowser ;;
  putBrowser {| clock := clock b; nextHandle := nextHandle b + 1;
                pending := pending b ++
                           [{| handle := nextHandle b;
                               due := clock b + delay;
                               callback := cb |}];
                chatFooter := chatFooter b; trace := trace b |} ;;
  ret (nextHandle b).

(** [el.scrollIntoView(opts)]; calling a method on a missing reference
    is a TypeError. *)
Definition scrollIntoView (el : Js HTMLElement) (opts : ScrollIntoViewOptions)
  : M unit :=
  match el with
  | undefined => throw (TypeError "scrollIntoView of undefined")
  | defined e => perform (ScrollIntoView e opts)
  end.

(** *** Methods of the component *)

(** [this.chatThread.at(-1)?.text.at(-1)?.value] *)
Definition response (chatThread : list ChatThreadEntry) : Js string :=
  optChain (at_ chatThread (-1))
           (fun entry => optChain (at_ (text entry) (-1))
                                  (fun textEntry => defined (value textEntry))).

Definition copyResponseToClipboard : M unit :=
  c <- getThis ;;
  writeText (response (chatThread c)) ;;
  setIsResponseCopied true.

Definition actionButtonClicked
  (actionButton : ChatActionButton.t) (entry : ChatThreadEntry) (event : Event)
  : M unit :=
  preventDefault event ;;
  let actionButtonClickedEvent :=
    {| type := "on-action-button-click";
       detail := actionButtonDetail (ChatActionButton.id actionButton) entry;
       bubbles := true;
       composed := true |} in
  dispatchEvent actionButtonClickedEvent.

(** The arrow function armed by [debounceScrollIntoView]. *)
Definition runCallback (cb : Callback) : M unit :=
  match cb with
  | scrollFooterIntoView =>
      b <- getBrowser ;;
      if truthy (chatFooter b)
      then scrollIntoView (chatFooter b)
                          {| behavior := smooth; block := center |}
      else ret tt
  end.

Definition debounceScrollIntoView : M unit :=
  let timeout := 0 in
  clearTimeout timeout ;;
  timeout <- setTimeout scrollFooterIntoView 500 ;;
  ret tt.

Definition handleCitationClick (citationClickedEvent : Event) : M unit :=
  dispatchEvent citationClickedEvent.

Definition handleFollowupQuestionClick (question : string) (event : Event)
  : M unit :=
  preventDefault event ;;
  let citationClickedEvent :=
    {| type := "on-followup-click";
       detail := followupDetail question;
       bubbles := true;
       composed := true |} in
  dispatchEvent citationClickedEvent.

(** *** Templates

    A lit template is embedded as the tree it describes.  Whitespace
    between the parts of a template is left out; an expression that
    evaluates to the empty string is kept as [Blank], an array
    of templates as [Items]. *)

Inductive Handler : Type :=
| onActionButtonClicked (actionButton : ChatActionButton.t) (entry : ChatThreadEntry)
| onCopyResponseToClipboard
| onCitationClick
| onFollowupQuestionClick (followupQuestion : string).

Inductive Attr : Type :=
| attr (name : string) (v : string)          (* name="v" *)
| boolAttr (name : string) (on : bool)       (* ?name="on" *)
| listener (event : string) (h : Handler)    (* @event="h" *)
| propCitations (cs : list Citation)         (* .citations="cs" *)
| propLabel (l : string).                    (* .label="l" *)

Inductive Html : Type :=
| Blank
| TextNode (s : string)
| unsafeHTML (s : string)
| unsafeSVG (s : string)
| Element (tag : string) (attrs : list Attr) (children : list Html)
| Items (items : list Html).

(** The listener bodies written in the templates. *)
Definition runHandler (h : Handler) (event : Event) : M unit :=
  match h with
  | onActionButtonClicked actionButton entry =>
      actionButtonClicked actionButton entry event
  | onCopyResponseToClipboard => copyResponseToClipboard
  | onCitationClick => handleCitationClick event
  | onFollowupQuestionClick followupQuestion =>
      handleFollowupQuestionClick followupQuestion event
  end.

Definition renderResponseActions (entry : ChatThreadEntry) : M Html :=
  c <- getThis ;;
  ret (Element "div" [attr "class" "chat__header"]
         [Items (map (fun actionButton =>
                   Element "button"
                     [attr "title" (ChatActionButton.label actionButton);
                      attr "class" "button chat__header--button";
                      attr "data-testid"
                           ("chat-action-button-" ++
                            ChatActionButton.id actionButton)%string;
                      listener "click" (onActionButtonClicked actionButton entry);
                      boolAttr "disabled" (ChatActionButton.isDisabled actionButton)]
                     [Element "span" [attr "class" "chat__header--span"]
                              [TextNode (ChatActionButton.label actionButton)];
                      unsafeSVG (ChatActionButton.svgIcon actionButton)])
                 (actionButtons c));
          Element "button"
            [attr "title" (COPY_RESPONSE_BUTTON_LABEL_TEXT globalConfig);
             attr "class" "button chat__header--button";
             attr "data-testid" "chat-action-button-copy-response";
             listener "click" onCopyResponseToClipboard;
             boolAttr "disabled" (isDisabled c)]
            [Element "span" [attr "class" "chat__header--span"]
                     [TextNode (if isResponseCopied c
                                then COPIED_SUCCESSFULLY_MESSAGE globalConfig
                                else COPY_RESPONSE_BUTTON_LABEL_TEXT globalConfig)];
             if isResponseCopied c
             then unsafeSVG iconSuccess
             else unsafeSVG iconCopyToClipboard]]).

Definition renderTextEntry (textEntry : ChatMessageText) : M Html :=
  let entries :=
    [Element "p" [attr "class" "chat__txt--entry"] [unsafeHTML (value textEntry)]] in
  let entries :=
    match followingSteps textEntry with
    | defined steps =>
        if 0 <? Z.of_nat (List.length steps)
        then entries ++
             [Element "ol" [attr "class" "items__list steps"]
                [Items (map (fun followingStep =>
                          Element "li" [attr "class" "items__listItem--step"]
                                  [unsafeHTML followingStep])
                        steps)]]
        else entries
    | undefined => entries
    end in
  c <- getThis ;;
  (if isProcessingResponse c then debounceScrollIntoView else ret tt) ;;
  ret (Element "div" [attr "class" "chat_txt--entry-container"] [Items entries]).

Definition renderCitation (citations : Js (list Citation)) : Html :=
  match citations with
  | defined cs =>
      if 0 <? Z.of_nat (List.length cs)
      then Element "div" [attr "class" "chat__citations"]
             [Element "citation-list"
                [propCitations cs;
                 propLabel (CITATIONS_LABEL globalConfig);
                 listener "on-citation-click" onCitationClick]
                []]
      else Blank
  | undefined => Blank
  end.

Definition renderFollowupQuestions (followupQuestions : Js (list string)) : Html :=
  match followupQuestions with
  | defined qs =>
      if 0 <? Z.of_nat (List.length qs)
      then Element "div" [attr "class" "items__listWrapper"]
             [unsafeSVG iconQuestion;
              Element "ul" [attr "class" "items__list followup"]
                [Items (map (fun followupQuestion =>
                          Element "li" [attr "class" "items__listItem--followup"]
                            [Element "a"
                               [attr "class" "items__link";
                                attr "href" "#";
                                attr "data-testid" "followUpQuestion";
                                listener "click"
                                         (onFollowupQuestionClick followupQuestion)]
                               [TextNode followupQuestion]])
                        qs)]]
      else Blank
  | undefined => Blank
  end.

Definition renderError (error : ChatError) : Html :=
  Element "p" [attr "class" "chat__txt error"] [TextNode (message error)].

(** The arrow function mapped over [this.chatThread] in [render]. *)
Definition renderMessage (message : ChatThreadEntry) : M Html :=
  actions <- (if isUserMessage message then ret Blank
              else renderResponseActions message) ;;
  texts <- mapM renderTextEntry (text message) ;;
  ret (Element "li"
         [attr "class"
               ("chat__listItem " ++
                (if isUserMessage message then "user-message"
                 else String.EmptyString))%string]
         [Element "div"
            [attr "class"
                  ("chat__txt " ++
                   (if isUserMessage message then "user-message"
                    else String.EmptyString))%string]
            [actions;
             Items texts;
             renderCitation (citations message);
             renderFollowupQuestions (followupQuestions message);
             match error message with
             | defined e => renderError e
             | undefined => Blank
             end];
          Element "p" [attr "class" "chat__txt--info"]
            [Element "span" [attr "class" "timestamp"] [TextNode (timestamp message)];
             TextNode ",";
             Element "span" [attr "class" "user"]
               [TextNode (if isUserMessage message then "You"
                          else USER_IS_BOT globalConfig)]]]).

Definition render : M Html :=
  c <- getThis ;;
  messages <- mapM renderMessage (chatThread c) ;;
  ret (Items
         [Element "ul" [attr "class" "chat__list"; attr "aria-live" "assertive"]
                  [Items messages];
          Element "div" [attr "class" "chat__footer"; attr "id" "chat-list-footer"]
                  []]).

(** *** Reading a rendered tree *)

(** [n] is an element whose class attribute is exactly [c]. *)
Definition hasClass (c : string) (n : Html) : bool :=
  match n with
  | Element _ attrs _ =>
      existsb (fun a => match a with
                        | attr name v => (name =? "class")%string && (v =? c)%string
                        | _ => false
                        end) attrs
  | _ => false
  end.

Definition hasTag (t : string) (n : Html) : bool :=
  match n with
  | Element tag _ _ => (tag =? t)%string
  | _ => false
  end.

(** All nodes of a tree that satisfy [p], in document order. *)
Fixpoint select (p : Html -> bool) (n : Html) : list Html :=
  (if p n then [n] else []) ++
  match n with
  | Element _ _ children => flat_map (select p) children
  | Items items => flat_map (select p) items
  | _ => []
  end.

(** The classes that mark the regions of a message. *)
Definition regionClasses : list string :=
  ["chat__header"; "chat__citations"; "items__listWrapper"; "items__link"].

Definition actionButtonRows : Html -> list Html := select (hasClass "chat__header").
Definition citationRegions : Html -> list Html := select (hasClass "chat__citations").
Definition followupRegions : Html -> list Html := select (hasClass "items__listWrapper").
Definition followupItems : Html -> list Html := select (hasClass "items__link").

Definition childNodes (n : Html) : list Html :=
  match n with
  | Element _ _ children => children
  | Items items => items
  | _ => []
  end.

(** The handlers an element registers for an event. *)
Definition listeners (event : string) (n : Html) : list Handler :=
  match n with
  | Element _ attrs _ =>
      flat_map (fun a => match a with
                         | listener e h => if (e =? event)%string then [h] else []
                         | _ => []
                         end) attrs
  | _ => []
  end.

(** A click on a rendered element runs its click listeners. *)
Definition click (n : Html) (event : Event) : M unit :=
  forEachM (fun h => runHandler h event) (listeners "click" n).

(** *** The event loop's timers

    One tick moves the clock by one unit and runs the callbacks that
    have come due, oldest first; an exception escaping a callback is
    reported and the loop goes on. *)

Definition fire (t : Timer) : M unit :=
  fun st =>
    match runCallback (callback t) st with
    | (Normal _, st') => (Normal tt, st')
    | (Throw e, st') => perform (UncaughtError e) st'
    end.

Definition tick : M unit :=
  b <- getBrowser ;;
  let now := clock b + 1 in
  putBrowser {| clock := now; nextHandle := nextHandle b;
                pending := filter (fun t => negb (due t <=? now)) (pending b);
                chatFooter := chatFooter b; trace := trace b |} ;;
  forEachM fire (filter (fun t => due t <=? now) (pending b)).

Definition advance (units : nat) : M unit := repeatM units tick.

(** A burst of scroll requests: one request, then for each gap a wait
    of that many units followed by another request. *)
Fixpoint burst (gaps : list nat) : M unit :=
  debounceScrollIntoView ;;
  match gaps with
  | [] => ret tt
  | g :: rest => advance g ;; burst rest
  end.

Definition scrollCount (b : Browser) : nat :=
  List.length (filter (fun e => match e with ScrollIntoView _ _ => true | _ => false end)
                      (trace b)).

Definition clipboardWrites (b : Browser) : list (Js string) :=
  flat_map (fun e => match e with ClipboardWriteText d => [d] | _ => [] end) (trace b).

(** *** Event propagation

    An event dispatched on the host reaches an ancestor when it
    bubbles and, for every shadow root on the way, is composed. *)
Definition reachesAncestor (ev : Event) (path : list Hop) : bool :=
  match path with
  | [] => true
  | _ => bubbles ev &&
         (composed ev ||
          forallb (fun h => match h with toParent => true | outOfShadowRoot => false end)
                  path)
  end.

(** *** Statement vocabulary *)

(** [m] returns normally from every state, leaves the component's
    fields alone and its result satisfies [P]. *)
Definition Returns {A : Type} (m : M A) (P : A -> Prop) : Prop :=
  forall st, exists a st', m st = (Normal a, st') /\ this st' = this st /\ P a.

(** The outcome of [m] and what it does to the component's fields are
    determined by the component's fields alone. *)
Definition Oblivious {A : Type} (m : M A) : Prop :=
  forall c b1 b2,
    fst (m {| this := c; browser := b1 |}) = fst (m {| this := c; browser := b2 |}) /\
    this (snd (m {| this := c; browser := b1 |})) = c /\
    this (snd (m {| this := c; browser := b2 |})) = c.

(** [render] produced the page whose list items are [messages]. *)
Definition rendersAs (st : St) (messages : list Html) : Prop :=
  fst (render st) =
  Normal (Items
            [Element "ul" [attr "class" "chat__list"; attr "aria-live" "assertive"]
                     [Items messages];
             Element "div" [attr "class" "chat__footer"; attr "id" "chat-list-footer"]
                     []]).

(** What the list item rendered for [message] shows of each region. *)
Definition messageRegions (message : ChatThreadEntry) (li : Html) : Prop :=
  (isUserMessage message = true -> actionButtonRows li = []) /\
  citationRegions li =
    (if presentAndNonEmpty (citations message)
     then [renderCitation (citations message)] else []) /\
  followupRegions li =
    (if presentAndNonEmpty (followupQuestions message)
     then [renderFollowupQuestions (followupQuestions message)] else []) /\
  followupItems li =
    followupItems (renderFollowupQuestions (followupQuestions message)).

(** [st'] is [st] with [es] appended to the trace. *)
Definition extendsTrace (st st' : St) (es : list Effect) : Prop :=
  this st' = this st /\
  clock (browser st') = clock (browser st) /\
  nextHandle (browser st') = nextHandle (browser st) /\
  pending (browser st') = pending (browser st) /\
  chatFooter (browser st') = chatFooter (browser st) /\
  trace (browser st') = trace (browser st) ++ es.

(** The scrolls that [n] firing timers perform, given the footer. *)
Definition fired (chatFooter : Js HTMLElement) (n : nat) : list Effect :=
  match chatFooter with
  | defined el => repeat (ScrollIntoView el {| behavior := smooth; block := center |}) n
  | undefined => []
  end.

(** [st'] is [st] at time [now], the timers due by then having fired. *)
Definition afterTimers (st st' : St) (now : Z) : Prop :=
  this st' = this st /\
  clock (browser st') = now /\
  nextHandle (browser st') = nextHandle (browser st) /\
  pending (browser st') =
    filter (fun t => negb (due t <=? now)) (pending (browser st)) /\
  chatFooter (browser st') = chatFooter (browser st) /\
  trace (browser st') =
    trace (browser st) ++
    fired (chatFooter (browser st))
          (List.length (filter (fun t => due t <=? now) (pending (browser st)))).

(** Every pending timer is due later than now and within the quiet
    period. *)
Definition timersArmed (b : Browser) : Prop :=
  Forall (fun t => clock b < due t <= clock b + 500) (pending b).

(** [st'] is [st] with one more timer armed for the scroll. *)
Definition armsScroll (st st' : St) : Prop :=
  this st' = this st /\
  clock (browser st') = clock (browser st) /\
  nextHandle (browser st') = nextHandle (browser st) + 1 /\
  pending (browser st') =
    pending (browser st) ++
    [{| handle := nextHandle (browser st);
        due := clock (browser st) + 500;
        callback := scrollFooterIntoView |}] /\
  chatFooter (browser st') = chatFooter (browser st) /\
  trace (browser st') = trace (browser st).

(** Timer handles handed out by the browser are positive. *)
Definition handlesPositive (b : Browser) : Prop :=
  0 < nextHandle b /\ Forall (fun t => 0 < handle t) (pending b).

(** *** Sample data *)

Definition sampleConfig : GlobalConfig :=
  {| COPY_RESPONSE_BUTTON_LABEL_TEXT := "Copy";
     COPIED_SUCCESSFULLY_MESSAGE := "Copied";
     CITATIONS_LABEL := "Citations";
     USER_IS_BOT := "Assistant" |}.

Definition footer : HTMLElement := {| elementId := "chat-list-footer" |}.

Definition clickEvent : Event :=
  {| type := "click"; detail := noDetail; bubbles := true; composed := true |}.

(** The field initialisers of the class. *)
Definition initialComponent : ChatThreadComponent :=
  {| chatThread := []; actionButtons := []; isDisabled := false;
     isProcessingResponse := false; isResponseCopied := false |}.

Definition idleBrowser : Browser :=
  {| clock := 0; nextHandle := 1; pending := [];
     chatFooter := defined footer; trace := [] |}.

Definition initialSt : St := {| this := initialComponent; browser := idleBrowser |}.

Definition withChatThread (entries : list ChatThreadEntry) : St :=
  {| this := {| chatThread := entries; actionButtons := []; isDisabled := false;
                isProcessingResponse := false; isResponseCopied := false |};
     browser := idleBrowser |}.

Definition userHi : ChatThreadEntry :=
  {| isUserMessage := true; text := [{| value := "Hi"; followingSteps := undefined |}];
     citations := undefined; followupQuestions := undefined;
     error := undefined; timestamp := "t1" |}.

Definition botHello (cs : Js (list Citation)) (qs : Js (list string)) : ChatThreadEntry :=
  {| isUserMessage := false;
     text := [{| value := "Hello!"; followingSteps := undefined |}];
     citations := cs; followupQuestions := qs;
     error := undefined; timestamp := "t2" |}.

(** A user entry that nevertheless carries follow-ups and citations. *)
Definition userWithExtras (cs : Js (list Citation)) : ChatThreadEntry :=
  {| isUserMessage := true; text := [{| value := "Hi"; followingSteps := undefined |}];
     citations := cs; followupQuestions := defined ["And then?"];
     error := undefined; timestamp := "t1" |}.

(** *** Further vocabulary *)

(** From every state whose component fields are [c], [m] returns
    normally, leaves the fields alone and its result satisfies [P]. *)
Definition ReturnsAt {A : Type} (c : ChatThreadComponent) (m : M A)
           (P : A -> Prop) : Prop :=
  forall st, this st = c ->
             exists a st', m st = (Normal a, st') /\ this st' = c /\ P a.

(** The values an element gives to a plain attribute. *)
Definition attribute (name : string) (n : Html) : list string :=
  match n with
  | Element _ attrs _ =>
      flat_map (fun a => match a with
                         | attr nm v => if (nm =? name)%string then [v] else []
                         | _ => []
                         end) attrs
  | _ => []
  end.

(** The values an element gives to a boolean attribute. *)
Definition booleanAttribute (name : string) (n : Html) : list bool :=
  match n with
  | Element _ attrs _ =>
      flat_map (fun a => match a with
                         | boolAttr nm on => if (nm =? name)%string then [on] else []
                         | _ => []
                         end) attrs
  | _ => []
  end.



(** The text blocks of a transcript, in rendering order. *)
Definition textBlocks (entries : list ChatThreadEntry) : list ChatMessageText :=
  flat_map text entries.

(** The steps listed under a text block. *)
Definition stepsOf (textEntry : ChatMessageText) : list string :=
  match followingSteps textEntry with
  | defined steps => steps
  | undefined => []
  end.

(** The parts of a message looked up by class or tag. *)
Definition detailSelectors : list (Html -> bool) :=
  [hasClass "timestamp"; hasClass "user"; hasClass "chat__txt error";
   hasClass "chat__txt--entry"; hasClass "items__listItem--step";
   hasClass "items__list steps"; hasTag "button"; hasTag "citation-list"].

(** The [n] timers armed one after the other from browser state [b]. *)
Definition scrollTimers (b : Browser) (n : nat) : list Timer :=
  map (fun k => {| handle := nextHandle b + Z.of_nat k;
                   due := clock b + 500;
                   callback := scrollFooterIntoView |})
      (seq 0 n).

(** [st'] is [st] with [n] more scroll timers armed. *)
Definition armsScrolls (st st' : St) (n : nat) : Prop :=
  this st' = this st /\
  clock (browser st') = clock (browser st) /\
  nextHandle (browser st') = nextHandle (browser st) + Z.of_nat n /\
  pending (browser st') = pending (browser st) ++ scrollTimers (browser st) n /\
  chatFooter (browser st') = chatFooter (browser st) /\
  trace (browser st') = trace (browser st).

(** What a rendered text block holds: its paragraph, the list of its
    steps when there are some, and nothing else that is looked up. *)
Definition textEntryDetails (textEntry : ChatMessageText) (n : Html) : Prop :=
  select (hasClass "chat__txt--entry") n =
    [Element "p" [attr "class" "chat__txt--entry"] [unsafeHTML (value textEntry)]] /\
  select (hasClass "items__listItem--step") n =
    map (fun followingStep =>
           Element "li" [attr "class" "items__listItem--step"]
                   [unsafeHTML followingStep])
        (stepsOf textEntry) /\
  List.length (select (hasClass "items__list steps") n) =
    (if presentAndNonEmpty (followingSteps textEntry) then 1 else 0)%nat /\
  forall p, In p (firstn 3 detailSelectors ++ skipn 6 detailSelectors) ->
            select p n = [].

(** What the action row rendered for [entry] under the fields [c]
    holds: the row itself, one button per entry of [actionButtons] in
    order, then the copy button. *)
Definition actionRowDetails (c : ChatThreadComponent) (entry : ChatThreadEntry)
           (row : Html) : Prop :=
  select (hasClass "chat__header") row = [row] /\
  (forall p, In p (firstn 6 detailSelectors ++ skipn 7 detailSelectors) ->
             select p row = []) /\
  exists buttons copyButton,
    select (hasTag "button") row = buttons ++ [copyButton] /\
    Forall2
      (fun actionButton button =>
         attribute "title" button = [ChatActionButton.label actionButton] /\
         attribute "data-testid" button =
           [("chat-action-button-" ++ ChatActionButton.id actionButton)%string] /\
         booleanAttribute "disabled" button =
           [ChatActionButton.isDisabled actionButton] /\
         listeners "click" button = [onActionButtonClicked actionButton entry] /\
         childNodes button =
           [Element "span" [attr "class" "chat__header--span"]
                    [TextNode (ChatActionButton.label actionButton)];
            unsafeSVG (ChatActionButton.svgIcon actionButton)])
      (actionButtons c) buttons /\
    attribute "title" copyButton = [COPY_RESPONSE_BUTTON_LABEL_TEXT globalConfig] /\
    attribute "data-testid" copyButton = ["chat-action-button-copy-response"] /\
    booleanAttribute "disabled" copyButton = [isDisabled c] /\
    listeners "click" copyButton = [onCopyResponseToClipboard] /\
    childNodes copyButton =
      [Element "span" [attr "class" "chat__header--span"]
               [TextNode (if isResponseCopied c
                          then COPIED_SUCCESSFULLY_MESSAGE globalConfig
                          else COPY_RESPONSE_BUTTON_LABEL_TEXT globalConfig)];
       if isResponseCopied c
       then unsafeSVG iconSuccess
       else unsafeSVG iconCopyToClipboard].

(** What the list item rendered for [entry] under the fields [c] holds,
    part by part. *)
Definition messageDetails (c : ChatThreadComponent) (entry : ChatThreadEntry)
           (li : Html) : Prop :=
  hasTag "li" li = true /\
  attribute "class" li =
    [("chat__listItem " ++
      (if isUserMessage entry then "user-message" else String.EmptyString))%string] /\
  select (hasClass "timestamp") li =
    [Element "span" [attr "class" "timestamp"] [TextNode (timestamp entry)]] /\
  select (hasClass "user") li =
    [Element "span" [attr "class" "user"]
       [TextNode (if isUserMessage entry then "You" else USER_IS_BOT globalConfig)]] /\
  select (hasClass "chat__txt error") li =
    match error entry with
    | defined e =>
        [Element "p" [attr "class" "chat__txt error"] [TextNode (message e)]]
    | undefined => []
    end /\
  select (hasClass "chat__txt--entry") li =
    map (fun textEntry =>
           Element "p" [attr "class" "chat__txt--entry"]
                   [unsafeHTML (value textEntry)])
        (text entry) /\
  select (hasClass "items__listItem--step") li =
    flat_map (fun textEntry =>
                map (fun followingStep =>
                       Element "li" [attr "class" "items__listItem--step"]
                               [unsafeHTML followingStep])
                    (stepsOf textEntry))
             (text entry) /\
  List.length (select (hasClass "items__list steps") li) =
    List.length (filter (fun textEntry =>
                           presentAndNonEmpty (followingSteps textEntry))
                        (text entry)) /\
  select (hasTag "citation-list") li =
    (if presentAndNonEmpty (citations entry)
     then match citations entry with
          | defined l =>
              [Element "citation-list"
                 [propCitations l; propLabel (CITATIONS_LABEL globalConfig);
                  listener "on-citation-click" onCitationClick] []]
          | undefined => []
          end
     else []) /\
  (if isUserMessage entry
   then select (hasTag "button") li = []
   else exists row,
       actionButtonRows li = [row] /\
       select (hasTag "button") li = select (hasTag "button") row /\
       actionRowDetails c entry row).

(** The follow-up questions of an entry. *)
Definition questionsOf (entry : ChatThreadEntry) : list string :=
  match followupQuestions entry with
  | defined questions => questions
  | undefined => []
  end.

(** From every state whose component fields are [c] and whose timer
    handles are positive, [m] returns normally and arms [n] scroll
    timers, nothing else. *)
Definition ArmsAt {A : Type} (c : ChatThreadComponent) (m : M A) (n : nat) : Prop :=
  forall st, this st = c -> handlesPositive (browser st) ->
             exists a st', m st = (Normal a, st') /\ armsScrolls st st' n.

(** A transcript of two entries while the response is still coming in. *)
Definition streamingSt : St :=
  {| this := {| chatThread := [userHi; botHello undefined undefined];
                actionButtons := []; isDisabled := true;
                isProcessingResponse := true; isResponseCopied := false |};
     browser := idleBrowser |}.

(** ** Reasoning about computations *)

Lemma Returns_ret {A : Type} (a : A) (P : A -> Prop) :
  P a -> Returns (ret a) P.
Proof.
  intros Ha st. exists a, st. auto.
Qed.

Lemma Returns_bind {A B : Type} (m : M A) (k : A -> M B)
      (P : A -> Prop) (Q : B -> Prop) :
  Returns m P -> (forall a, P a -> Returns (k a) Q) -> Returns (bind m k) Q.
Proof.
  intros Hm Hk st.
  destruct (Hm st) as (a & st1 & Em & Ethis & Pa).
  destruct (Hk a Pa st1) as (b & st2 & Ek & Ethis2 & Qb).
  exists b, st2. unfold bind. rewrite Em, Ek.
  repeat split; [congruence | assumption].
Qed.

Lemma Returns_weaken {A : Type} (m : M A) (P Q : A -> Prop) :
  Returns m P -> (forall a, P a -> Q a) -> Returns m Q.
Proof.
  intros Hm HPQ st.
  destruct (Hm st) as (a & st1 & Em & Ethis & Pa).
  exists a, st1. auto.
Qed.

Lemma Returns_getThis : Returns getThis (fun _ => True).
Proof.
  intros st. exists (this st), st. auto.
Qed.

Lemma Returns_mapM {A B : Type} (f : A -> M B) (P : A -> B -> Prop) (l : list A) :
  (forall x, Returns (f x) (P x)) -> Returns (mapM f l) (Forall2 P l).
Proof.
  intros Hf. induction l as [|x r IH]; simpl.
  - apply Returns_ret. constructor.
  - eapply Returns_bind; [apply Hf|]. intros y Py.
    eapply Returns_bind; [apply IH|]. intros ys Pys.
    apply Returns_ret. constructor; assumption.
Qed.

Lemma Returns_debounceScrollIntoView :
  Returns debounceScrollIntoView (fun _ => True).
Proof.
  intros st. eexists _, _. split; [reflexivity|]. simpl. auto.
Qed.

Lemma Oblivious_ret {A : Type} (a : A) : Oblivious (ret a).
Proof.
  intros c b1 b2. simpl. auto.
Qed.

Lemma Oblivious_bind {A B : Type} (m : M A) (k : A -> M B) :
  Oblivious m -> (forall a, Oblivious (k a)) -> Oblivious (bind m k).
Proof.
  intros Hm Hk c b1 b2. unfold bind.
  destruct (Hm c b1 b2) as (Efst & E1 & E2).
  destruct (m {| this := c; browser := b1 |}) as [[a1|e1] [c1 b1']];
    destruct (m {| this := c; browser := b2 |}) as [[a2|e2] [c2 b2']];
    simpl in *; subst; try discriminate.
  - injection Efst as ->. apply Hk.
  - injection Efst as ->. auto.
Qed.

Lemma Oblivious_getThis : Oblivious getThis.
Proof.
  intros c b1 b2. simpl. auto.
Qed.

Lemma Oblivious_mapM {A B : Type} (f : A -> M B) (l : list A) :
  (forall x, Oblivious (f x)) -> Oblivious (mapM f l).
Proof.
  intros Hf. induction l as [|x r IH]; simpl.
  - apply Oblivious_ret.
  - apply Oblivious_bind; [apply Hf|]. intros y.
    apply Oblivious_bind; [apply IH|]. intros ys.
    apply Oblivious_ret.
Qed.

Lemma Oblivious_debounceScrollIntoView : Oblivious debounceScrollIntoView.
Proof.
  intros c b1 b2. simpl. auto.
Qed.

Lemma Oblivious_renderTextEntry (textEntry : ChatMessageText) :
  Oblivious (renderTextEntry textEntry).
Proof.
  unfold renderTextEntry.
  apply Oblivious_bind; [apply Oblivious_getThis|]. intros c.
  apply Oblivious_bind; [|intros; apply Oblivious_ret].
  destruct (isProcessingResponse c);
    [apply Oblivious_debounceScrollIntoView | apply Oblivious_ret].
Qed.

Lemma Oblivious_renderMessage (message : ChatThreadEntry) :
  Oblivious (renderMessage message).
Proof.
  unfold renderMessage.
  apply Oblivious_bind.
  - destruct (isUserMessage message); [apply Oblivious_ret|].
    unfold renderResponseActions.
    apply Oblivious_bind; [apply Oblivious_getThis|].
    intros; apply Oblivious_ret.
  - intros actions.
    apply Oblivious_bind;
      [apply Oblivious_mapM, Oblivious_renderTextEntry|].
    intros; apply Oblivious_ret.
Qed.

Lemma Oblivious_render : Oblivious render.
Proof.
  unfold render.
  apply Oblivious_bind; [apply Oblivious_getThis|]. intros c.
  apply Oblivious_bind; [apply Oblivious_mapM, Oblivious_renderMessage|].
  intros; apply Oblivious_ret.
Qed.

(** ** Reading rendered trees *)

Ltac each_region H :=
  simpl in H;
  repeat (destruct H as [<-|H]); [..|contradiction].

Lemma flat_map_select_nil (p : Html -> bool) (l : list Html) :
  Forall (fun n => select p n = []) l -> flat_map (select p) l = [].
Proof.
  induction 1 as [|n r Hn _ IH]; simpl; [reflexivity|].
  rewrite Hn, IH. reflexivity.
Qed.

Lemma flat_map_select_map_nil {X : Type} (p : Html -> bool) (f : X -> Html)
      (l : list X) :
  (forall x, select p (f x) = []) -> flat_map (select p) (map f l) = [].
Proof.
  intros Hf. apply flat_map_select_nil.
  induction l; simpl; constructor; auto.
Qed.

Lemma renderTextEntry_regions (textEntry : ChatMessageText) :
  Returns (renderTextEntry textEntry)
          (fun n => forall c, In c regionClasses -> select (hasClass c) n = []).
Proof.
  unfold renderTextEntry.
  eapply Returns_bind; [apply Returns_getThis|]. intros c _.
  eapply Returns_bind with (P := fun _ => True).
  { destruct (isProcessingResponse c);
      [apply Returns_debounceScrollIntoView | apply Returns_ret; exact I]. }
  intros _ _. apply Returns_ret. intros cl Hcl.
  destruct (followingSteps textEntry) as [|steps].
  - each_region Hcl; reflexivity.
  - destruct (0 <? Z.of_nat (List.length steps)).
    + each_region Hcl; simpl; rewrite flat_map_select_map_nil; reflexivity.
    + each_region Hcl; reflexivity.
Qed.

Lemma renderResponseActions_regions (entry : ChatThreadEntry) :
  Returns (renderResponseActions entry)
          (fun n => forall c, In c (tl regionClasses) -> select (hasClass c) n = []).
Proof.
  unfold renderResponseActions.
  eapply Returns_bind; [apply Returns_getThis|]. intros c _.
  apply Returns_ret. intros cl Hcl.
  each_region Hcl; simpl; rewrite flat_map_select_map_nil;
    try reflexivity; destruct (isResponseCopied c); reflexivity.
Qed.

Lemma renderCitation_regions (cs : Js (list Citation)) (c : string) :
  In c regionClasses ->
  select (hasClass c) (renderCitation cs) =
  if (c =? "chat__citations")%string && presentAndNonEmpty cs
  then [renderCitation cs] else [].
Proof.
  intros Hc. unfold renderCitation, presentAndNonEmpty.
  destruct cs as [|cs]; [each_region Hc; reflexivity|].
  destruct (0 <? Z.of_nat (List.length cs)); each_region Hc; reflexivity.
Qed.

Lemma renderFollowupQuestions_regions (qs : Js (list string)) (c : string) :
  In c (removelast regionClasses) ->
  select (hasClass c) (renderFollowupQuestions qs) =
  if (c =? "items__listWrapper")%string && presentAndNonEmpty qs
  then [renderFollowupQuestions qs] else [].
Proof.
  intros Hc. unfold renderFollowupQuestions, presentAndNonEmpty.
  destruct qs as [|qs]; [each_region Hc; reflexivity|].
  destruct (0 <? Z.of_nat (List.length qs)); [|each_region Hc; reflexivity].
  each_region Hc; simpl; rewrite flat_map_select_map_nil; reflexivity.
Qed.

Lemma select_message (c : string) (user : bool)
      (actions : Html) (texts : list Html) (cit fol err : Html) (ts who : string) :
  In c regionClasses ->
  select (hasClass c)
    (Element "li"
       [attr "class"
             ("chat__listItem " ++
              (if user then "user-message" else String.EmptyString))%string]
       [Element "div"
          [attr "class"
                ("chat__txt " ++
                 (if user then "user-message" else String.EmptyString))%string]
          [actions; Items texts; cit; fol; err];
        Element "p" [attr "class" "chat__txt--info"]
          [Element "span" [attr "class" "timestamp"] [TextNode ts];
           TextNode ",";
           Element "span" [attr "class" "user"] [TextNode who]]]) =
  select (hasClass c) actions ++ flat_map (select (hasClass c)) texts ++
  select (hasClass c) cit ++ select (hasClass c) fol ++ select (hasClass c) err.
Proof.
  intros Hc.
  each_region Hc; destruct user; simpl; rewrite !app_nil_r; reflexivity.
Qed.

Lemma renderError_regions (e : Js ChatError) (c : string) :
  In c regionClasses ->
  select (hasClass c)
         match e with defined e' => renderError e' | undefined => Blank end = [].
Proof.
  intros Hc. destruct e; each_region Hc; reflexivity.
Qed.

Lemma texts_regions {X : Type} {l : list X} {texts : list Html} :
  Forall2 (fun _ n => forall c, In c regionClasses -> select (hasClass c) n = [])
          l texts ->
  forall c, In c regionClasses -> flat_map (select (hasClass c)) texts = [].
Proof.
  intros HF c Hc. apply flat_map_select_nil.
  induction HF; constructor; auto.
Qed.

Lemma renderMessage_regions (message : ChatThreadEntry) :
  Returns (renderMessage message) (messageRegions message).
Proof.
  unfold renderMessage.
  eapply Returns_bind with
    (P := fun actions =>
            (isUserMessage message = true -> actions = Blank) /\
            forall c, In c (tl regionClasses) -> select (hasClass c) actions = []).
  { destruct (isUserMessage message).
    - apply Returns_ret. split; [reflexivity|]. intros c _. reflexivity.
    - eapply Returns_weaken; [apply renderResponseActions_regions|].
      intros n Hn. split; [discriminate | exact Hn]. }
  intros actions [Huser Hactions].
  eapply Returns_bind;
    [apply Returns_mapM; intros textEntry; apply renderTextEntry_regions|].
  intros texts Htexts. apply Returns_ret.
  unfold messageRegions, actionButtonRows, citationRegions, followupRegions,
    followupItems.
  rewrite !select_message by (simpl; auto).
  rewrite !(texts_regions Htexts) by (simpl; auto).
  rewrite !renderCitation_regions by (simpl; auto).
  rewrite !renderError_regions by (simpl; auto).
  rewrite (renderFollowupQuestions_regions _ "chat__header"),
    (renderFollowupQuestions_regions _ "chat__citations"),
    (renderFollowupQuestions_regions _ "items__listWrapper") by (simpl; auto).
  rewrite (Hactions "chat__citations"), (Hactions "items__listWrapper"),
    (Hactions "items__link") by (simpl; auto).
  simpl. rewrite !app_nil_r.
  repeat split; try reflexivity.
  intros Hu. rewrite (Huser Hu). reflexivity.
Qed.

Lemma render_messages (P : ChatThreadEntry -> Html -> Prop) :
  (forall message, Returns (renderMessage message) (P message)) ->
  forall st, exists messages,
    rendersAs st messages /\ Forall2 P (chatThread (this st)) messages.
Proof.
  intros HP st. unfold rendersAs, render, bind at 1, getThis.
  destruct (Returns_mapM renderMessage P (chatThread (this st)) HP st)
    as (messages & st' & E & _ & HF).
  exists messages. unfold bind. rewrite E. simpl. auto.
Qed.

(** ** The rendering projection *)

Lemma Returns_renderMessage_any (message : ChatThreadEntry) :
  Returns (renderMessage message) (fun _ => True).
Proof.
  eapply Returns_weaken; [apply renderMessage_regions | trivial].
Qed.

(** C1, as the code has it: the list item rendered for a user entry
    has no action-button row; its citation region and its follow-up
    region are there exactly when the entry's [citations], respectively
    [followupQuestions], is present and non-empty. *)
Theorem user_message_regions (st : St) :
  exists messages,
    rendersAs st messages /\
    Forall2
      (fun message li =>
         isUserMessage message = true ->
         actionButtonRows li = [] /\
         citationRegions li =
           (if presentAndNonEmpty (citations message)
            then [renderCitation (citations message)] else []) /\
         followupRegions li =
           (if presentAndNonEmpty (followupQuestions message)
            then [renderFollowupQuestions (followupQuestions message)] else []))
      (chatThread (this st)) messages.
Proof.
  apply render_messages. intros message.
  eapply Returns_weaken; [apply renderMessage_regions|].
  intros li (Hrow & Hcit & Hfol & _) Huser. auto.
Qed.

(** C4: rendering returns a tree, the tree depends on the five fields
    of the component only (not on timers, clock, footer or trace), and
    rendering again right after a render yields the same tree. *)
Theorem render_deterministic (c : ChatThreadComponent) (b1 b2 : Browser) :
  (exists tree, fst (render {| this := c; browser := b1 |}) = Normal tree) /\
  fst (render {| this := c; browser := b1 |}) =
    fst (render {| this := c; browser := b2 |}) /\
  fst (render (snd (render {| this := c; browser := b1 |}))) =
    fst (render {| this := c; browser := b1 |}).
Proof.
  destruct (Oblivious_render c b1 b2) as (Efst & Ethis & _).
  repeat split.
  - destruct (render_messages (fun _ _ => True) Returns_renderMessage_any
                {| this := c; browser := b1 |}) as (messages & Hr & _).
    eexists. exact Hr.
  - exact Efst.
  - destruct (snd (render {| this := c; browser := b1 |})) as [c' b'].
    simpl in Ethis. subst c'.
    apply (Oblivious_render c b' b1).
Qed.

(** C5: [renderCitation] yields the empty string, not a wrapper, for
    missing or empty citations, and the list item of an entry holds no
    citation region then; for non-empty citations the item holds the
    one region wrapping the citation list. *)
Theorem citation_region_iff_nonempty (st : St) :
  renderCitation undefined = Blank /\
  renderCitation (defined []) = Blank /\
  exists messages,
    rendersAs st messages /\
    Forall2
      (fun message li =>
         match citations message with
         | undefined | defined [] => citationRegions li = []
         | defined (c :: cs) =>
             citationRegions li =
             [Element "div" [attr "class" "chat__citations"]
                [Element "citation-list"
                   [propCitations (c :: cs);
                    propLabel (CITATIONS_LABEL globalConfig);
                    listener "on-citation-click" onCitationClick]
                   []]]
         end)
      (chatThread (this st)) messages.
Proof.
  split; [reflexivity|]. split; [reflexivity|].
  apply render_messages. intros message.
  eapply Returns_weaken; [apply renderMessage_regions|].
  intros li (_ & Hcit & _). rewrite Hcit.
  destruct (citations message) as [|[|c cs]]; reflexivity.
Qed.

(** ** Action dispatch *)

(** Unfold the monad and the methods that neither loop nor branch on
    the state. *)
Ltac run :=
  cbv beta iota zeta delta
    [bind ret throw getThis getBrowser putBrowser perform setIsResponseCopied
     preventDefault dispatchEvent writeText clearTimeout setTimeout
     copyResponseToClipboard actionButtonClicked handleCitationClick
     handleFollowupQuestionClick runHandler debounceScrollIntoView
     forEachM click repeatM].

Lemma handleFollowupQuestionClick_notifies (question : string) (event : Event)
      (st : St) :
  exists st',
    handleFollowupQuestionClick question event st = (Normal tt, st') /\
    extendsTrace st st'
      [PreventDefault event;
       DispatchEvent {| type := "on-followup-click";
                        detail := followupDetail question;
                        bubbles := true; composed := true |}].
Proof.
  eexists. split; [run; reflexivity|].
  unfold extendsTrace. simpl. rewrite <- app_assoc. auto 7.
Qed.

(** C6: with [followupQuestions] missing or empty the list item of an
    entry holds no follow-up region and no follow-up link; with exactly
    one non-empty question [q] it holds exactly one link, an [a]
    element whose text is [q], and a click on it calls
    [preventDefault] on the click event and then dispatches
    [on-followup-click] with detail [{question: q}]. *)
Theorem followup_region_and_click (st : St) (q : string) (event : Event) :
  (q =? String.EmptyString)%string = false ->
  exists messages,
    rendersAs st messages /\
    Forall2
      (fun message li =>
         (followupQuestions message = undefined \/
          followupQuestions message = defined [] ->
          followupRegions li = [] /\ followupItems li = []) /\
         (followupQuestions message = defined [q] ->
          exists region item,
            followupRegions li = [region] /\
            followupItems li = [item] /\
            hasTag "a" item = true /\
            childNodes item = [TextNode q] /\
            forall st0, exists st1,
              click item event st0 = (Normal tt, st1) /\
              extendsTrace st0 st1
                [PreventDefault event;
                 DispatchEvent {| type := "on-followup-click";
                                  detail := followupDetail q;
                                  bubbles := true; composed := true |}]))
      (chatThread (this st)) messages.
Proof.
  intros _.
  apply render_messages. intros message.
  eapply Returns_weaken; [apply renderMessage_regions|].
  intros li (_ & _ & Hfol & Hitems). rewrite Hfol, Hitems. split.
  - intros [E|E]; rewrite E; split; reflexivity.
  - intros E. rewrite E. simpl. eexists _, _.
    repeat split.
    intros st0.
    destruct (handleFollowupQuestionClick_notifies q event st0) as (st1 & E1 & Ht).
    exists st1. split; [|exact Ht].
    unfold click, bind. simpl.
    unfold bind. rewrite E1. reflexivity.
Qed.

Lemma actionButtonClicked_effects
      (actionButton : ChatActionButton.t) (entry : ChatThreadEntry)
      (event : Event) (st : St) :
  exists st',
    actionButtonClicked actionButton entry event st = (Normal tt, st') /\
    extendsTrace st st'
      [PreventDefault event;
       DispatchEvent
         {| type := "on-action-button-click";
            detail := actionButtonDetail (ChatActionButton.id actionButton) entry;
            bubbles := true; composed := true |}].
Proof.
  eexists. split; [run; reflexivity|].
  unfold extendsTrace. simpl. rewrite <- app_assoc. auto 7.
Qed.

Lemma flat_map_select_map_self {X : Type} (p : Html -> bool) (f : X -> Html)
      (l : list X) :
  (forall x, select p (f x) = [f x]) -> flat_map (select p) (map f l) = map f l.
Proof.
  intros Hf. induction l as [|x r IH]; simpl; [reflexivity|].
  rewrite Hf, IH. reflexivity.
Qed.

(** The buttons of an action row, in document order: one per entry of
    [actionButtons], wired to [actionButtonClicked] with that button and
    the row's entry, then the copy button. *)
Lemma renderResponseActions_buttons (entry : ChatThreadEntry) (st : St) :
  exists row buttons copyButton,
    renderResponseActions entry st = (Normal row, st) /\
    select (hasTag "button") row = buttons ++ [copyButton] /\
    Forall2 (fun actionButton button =>
               listeners "click" button = [onActionButtonClicked actionButton entry])
            (actionButtons (this st)) buttons /\
    listeners "click" copyButton = [onCopyResponseToClipboard].
Proof.
  unfold renderResponseActions, bind, getThis, ret.
  destruct (isResponseCopied (this st));
    (eexists _, _, _; split; [reflexivity|]; split; [|split];
     [ simpl; rewrite flat_map_select_map_self by reflexivity;
       reflexivity
     | induction (actionButtons (this st)) as [|actionButton r IH]; simpl;
       constructor; [reflexivity | exact IH]
     | reflexivity ]).
Qed.

(** C7: [actionButtonClicked] calls [preventDefault] on the click
    event and then dispatches [on-action-button-click] whose detail is
    the button's id and the owning entry; every action button rendered
    for an entry is wired to do so on a click; the event bubbles and is
    composed, so it reaches every ancestor of the host, across shadow
    roots too. *)
Theorem actionButtonClicked_notifies
        (entry : ChatThreadEntry) (event : Event) (st : St) :
  (forall actionButton st0, exists st1,
      actionButtonClicked actionButton entry event st0 = (Normal tt, st1) /\
      extendsTrace st0 st1
        [PreventDefault event;
         DispatchEvent
           {| type := "on-action-button-click";
              detail := actionButtonDetail (ChatActionButton.id actionButton) entry;
              bubbles := true; composed := true |}]) /\
  exists row buttons copyButton,
    renderResponseActions entry st = (Normal row, st) /\
    select (hasTag "button") row = buttons ++ [copyButton] /\
    Forall2
      (fun actionButton button =>
         let notification :=
           {| type := "on-action-button-click";
              detail := actionButtonDetail (ChatActionButton.id actionButton) entry;
              bubbles := true; composed := true |} in
         (forall st0, exists st1,
             click button event st0 = (Normal tt, st1) /\
             extendsTrace st0 st1 [PreventDefault event; DispatchEvent notification]) /\
         forall path, reachesAncestor notification path = true)
      (actionButtons (this st)) buttons.
Proof.
  split; [intros actionButton st0; apply actionButtonClicked_effects|].
  destruct (renderResponseActions_buttons entry st)
    as (row & buttons & copyButton & Erow & Esel & Hwired & _).
  exists row, buttons, copyButton. split; [exact Erow|]. split; [exact Esel|].
  clear Erow Esel.
  induction Hwired as [|actionButton button abs bs Hl _ IH]; constructor;
    [|exact IH].
  simpl. split.
  - intros st0.
    destruct (actionButtonClicked_effects actionButton entry event st0)
      as (st1 & E1 & Ht).
    exists st1. split; [|exact Ht].
    unfold click. rewrite Hl. simpl. unfold bind. rewrite E1. reflexivity.
  - intros [|h path]; reflexivity.
Qed.

(** ** Copying the response *)

Lemma clipboardWrites_perform (st : St) (data : Js string) :
  clipboardWrites (browser (snd (writeText data st))) =
  clipboardWrites (browser st) ++ [data].
Proof.
  unfold clipboardWrites. simpl. rewrite flat_map_app. reflexivity.
Qed.

Lemma copyResponseToClipboard_once (st : St) :
  exists st',
    copyResponseToClipboard st = (Normal tt, st') /\
    chatThread (this st') = chatThread (this st) /\
    isResponseCopied (this st') = true /\
    trace (browser st') =
      trace (browser st) ++ [ClipboardWriteText (response (chatThread (this st)))].
Proof.
  eexists. split; [run; reflexivity|]. simpl. auto.
Qed.

Lemma copyResponseToClipboard_this_idempotent (st : St) :
  this (snd (copyResponseToClipboard (snd (copyResponseToClipboard st)))) =
  this (snd (copyResponseToClipboard st)).
Proof.
  reflexivity.
Qed.

Lemma copy_clicks_succ (k : nat) (event : Event) (st : St) :
  exists st',
    repeatM (S k) (runHandler onCopyResponseToClipboard event) st = (Normal tt, st') /\
    this st' = this (snd (copyResponseToClipboard st)) /\
    clipboardWrites (browser st') =
      clipboardWrites (browser st) ++
      repeat (response (chatThread (this st))) (S k).
Proof.
  revert st. induction k as [|k IH]; intros st.
  - eexists. split; [run; reflexivity|]. split; [reflexivity|].
    unfold clipboardWrites. simpl. rewrite flat_map_app. reflexivity.
  - destruct (IH (snd (copyResponseToClipboard st))) as (st' & E & Ethis & Ew).
    exists st'. split; [|split].
    + change (repeatM (S (S k)) (runHandler onCopyResponseToClipboard event) st)
        with (repeatM (S k) (runHandler onCopyResponseToClipboard event)
                      (snd (copyResponseToClipboard st))).
      exact E.
    + rewrite Ethis. apply copyResponseToClipboard_this_idempotent.
    + rewrite Ew.
      change (snd (copyResponseToClipboard st))
        with (snd (setIsResponseCopied true
                     (snd (writeText (response (chatThread (this st))) st)))).
      change (clipboardWrites
                (browser (snd (setIsResponseCopied true
                   (snd (writeText (response (chatThread (this st))) st))))))
        with (clipboardWrites
                (browser (snd (writeText (response (chatThread (this st))) st)))).
      rewrite clipboardWrites_perform, <- app_assoc. reflexivity.
Qed.

(** C3: after [k >= 1] clicks on the copy button [isResponseCopied]
    is true, the component's fields are what they were after the first
    click, and every click issued one more clipboard write. *)
Theorem copy_clicks_idempotent (k : nat) (event : Event) (st : St) :
  (1 <= k)%nat ->
  exists st',
    repeatM k (runHandler onCopyResponseToClipboard event) st = (Normal tt, st') /\
    isResponseCopied (this st') = true /\
    this st' = this (snd (copyResponseToClipboard st)) /\
    clipboardWrites (browser st') =
      clipboardWrites (browser st) ++ repeat (response (chatThread (this st))) k.
Proof.
  intros Hk. destruct k as [|k]; [lia|].
  destruct (copy_clicks_succ k event st) as (st' & E & Ethis & Ew).
  exists st'. repeat split; try assumption.
  rewrite Ethis. reflexivity.
Qed.

(** C8: on an empty transcript the read of the last entry's last text
    block yields [undefined] instead of throwing, and the copy
    handler returns normally. *)
Theorem copy_on_empty_transcript_is_silent (event : Event) (st : St) :
  chatThread (this st) = [] ->
  at_ (chatThread (this st)) (-1) = undefined /\
  response (chatThread (this st)) = undefined /\
  fst (runHandler onCopyResponseToClipboard event st) = Normal tt /\
  forall e, In (UncaughtError e)
               (trace (browser (snd (runHandler onCopyResponseToClipboard event st)))) ->
            In (UncaughtError e) (trace (browser st)).
Proof.
  intros E. rewrite E. repeat split.
  intros e. simpl. rewrite in_app_iff. intros [H|[H|[]]]; [exact H | discriminate H].
Qed.

(** C10: on an empty transcript a click on the copy button still
    writes to the clipboard, with [undefined] as the data, and still
    sets [isResponseCopied]. *)
Theorem copy_on_empty_transcript_still_writes (event : Event) (st : St) :
  chatThread (this st) = [] ->
  exists st',
    runHandler onCopyResponseToClipboard event st = (Normal tt, st') /\
    isResponseCopied (this st') = true /\
    trace (browser st') = trace (browser st) ++ [ClipboardWriteText undefined].
Proof.
  intros E. eexists. split; [run; reflexivity|]. simpl. rewrite E. auto.
Qed.

(** ** The scroll scheduler *)

Lemma extendsTrace_trans (st st1 st2 : St) (es1 es2 : list Effect) :
  extendsTrace st st1 es1 -> extendsTrace st1 st2 es2 ->
  extendsTrace st st2 (es1 ++ es2).
Proof.
  unfold extendsTrace.
  intros (A1 & A2 & A3 & A4 & A5 & A6) (B1 & B2 & B3 & B4 & B5 & B6).
  rewrite B1, B2, B3, B4, B5, B6, A6, app_assoc. auto 7.
Qed.

Lemma fire_footer (t : Timer) (st : St) :
  exists st',
    fire t st = (Normal tt, st') /\
    extendsTrace st st' (fired (chatFooter (browser st)) 1).
Proof.
  destruct t as [h d []]. destruct st as [c b].
  unfold fire, runCallback, bind, getBrowser. simpl.
  destruct (chatFooter b) as [|el] eqn:E; simpl.
  - eexists. split; [reflexivity|].
    unfold extendsTrace. simpl. rewrite E, app_nil_r. auto 7.
  - eexists. split; [reflexivity|].
    unfold extendsTrace. simpl. rewrite E. auto 7.
Qed.

Lemma fired_plus (chatFooter : Js HTMLElement) (n m : nat) :
  fired chatFooter (n + m) = fired chatFooter n ++ fired chatFooter m.
Proof.
  destruct chatFooter; simpl; [reflexivity | apply repeat_app].
Qed.

Lemma forEachM_fire (l : list Timer) (st : St) :
  exists st',
    forEachM fire l st = (Normal tt, st') /\
    extendsTrace st st' (fired (chatFooter (browser st)) (List.length l)).
Proof.
  revert st. induction l as [|t r IH]; intros st.
  - exists st. split; [reflexivity|].
    unfold extendsTrace, fired. destruct (chatFooter (browser st)); simpl;
      rewrite app_nil_r; auto 7.
  - destruct (fire_footer t st) as (st1 & E1 & H1).
    destruct (IH st1) as (st2 & E2 & H2).
    exists st2. split.
    + simpl. unfold bind. rewrite E1. exact E2.
    + change (List.length (t :: r)) with (1 + List.length r)%nat.
      rewrite fired_plus.
      eapply extendsTrace_trans; [exact H1|].
      destruct H1 as (_ & _ & _ & _ & Ef & _). rewrite <- Ef. exact H2.
Qed.

Lemma tick_afterTimers (st : St) :
  exists st', tick st = (Normal tt, st') /\ afterTimers st st' (clock (browser st) + 1).
Proof.
  destruct st as [c b].
  unfold tick, bind at 1, getBrowser.
  unfold bind, putBrowser.
  match goal with
  | |- context [forEachM fire ?l ?s] =>
      destruct (forEachM_fire l s) as (st' & E & (A1 & A2 & A3 & A4 & A5 & A6))
  end.
  exists st'. split; [exact E|].
  unfold afterTimers. simpl in *. auto 7.
Qed.

Lemma filter_later_twice (a b : Z) (l : list Timer) :
  a <= b ->
  filter (fun t => negb (due t <=? b)) (filter (fun t => negb (due t <=? a)) l) =
  filter (fun t => negb (due t <=? b)) l.
Proof.
  intros Hab. induction l as [|t r IH]; simpl; [reflexivity|].
  destruct (Z.leb_spec (due t) a); simpl;
    destruct (Z.leb_spec (due t) b); simpl; try lia; rewrite IH; reflexivity.
Qed.

Lemma filter_due_split (a b : Z) (l : list Timer) :
  a <= b ->
  Nat.add (List.length (filter (fun t => due t <=? a) l))
          (List.length (filter (fun t => due t <=? b)
                               (filter (fun t => negb (due t <=? a)) l))) =
  List.length (filter (fun t => due t <=? b) l).
Proof.
  intros Hab. induction l as [|t r IH]; simpl; [reflexivity|].
  destruct (Z.leb_spec (due t) a); simpl;
    destruct (Z.leb_spec (due t) b); simpl; lia.
Qed.

Lemma filter_none_due (now : Z) (l : list Timer) :
  Forall (fun t => now < due t) l ->
  filter (fun t => negb (due t <=? now)) l = l /\
  filter (fun t => due t <=? now) l = [].
Proof.
  induction 1 as [|t r Ht _ [IH1 IH2]]; simpl; [auto|].
  destruct (Z.leb_spec (due t) now); [lia|]. simpl.
  rewrite IH1, IH2. auto.
Qed.

Lemma filter_all_due (now : Z) (l : list Timer) :
  Forall (fun t => due t <= now) l ->
  filter (fun t => negb (due t <=? now)) l = [].
Proof.
  induction 1 as [|t r Ht _ IH]; simpl; [reflexivity|].
  destruct (Z.leb_spec (due t) now); [|lia]. simpl. exact IH.
Qed.

Lemma advance_afterTimers (n : nat) (st : St) :
  Forall (fun t => clock (browser st) < due t) (pending (browser st)) ->
  exists st',
    advance n st = (Normal tt, st') /\
    afterTimers st st' (clock (browser st) + Z.of_nat n).
Proof.
  revert st. induction n as [|n IH]; intros st Hlater.
  - exists st. split; [reflexivity|].
    unfold afterTimers. rewrite Z.add_0_r.
    destruct (filter_none_due _ _ Hlater) as [-> ->].
    unfold fired. destruct (chatFooter (browser st)); simpl;
      rewrite app_nil_r; auto 7.
  - destruct (tick_afterTimers st) as (st1 & E1 & (A1 & A2 & A3 & A4 & A5 & A6)).
    destruct (IH st1) as (st2 & E2 & (B1 & B2 & B3 & B4 & B5 & B6)).
    { rewrite A2, A4. apply Forall_forall. intros t Ht.
      apply filter_In in Ht. destruct Ht as [_ Ht].
      destruct (Z.leb_spec (due t) (clock (browser st) + 1)); [discriminate | lia]. }
    exists st2. split.
    + unfold advance in *. simpl. unfold bind. rewrite E1. exact E2.
    + unfold afterTimers.
      rewrite A1 in B1. rewrite A2 in B2, B4, B6. rewrite A3 in B3.
      rewrite A4 in B4, B6. rewrite A5 in B5, B6. rewrite A6 in B6.
      replace (clock (browser st) + 1 + Z.of_nat n)
        with (clock (browser st) + Z.of_nat (S n)) in B2, B4, B6 by lia.
      rewrite filter_later_twice in B4 by lia.
      rewrite <- (filter_due_split (clock (browser st) + 1)) by lia.
      rewrite fired_plus, app_assoc.
      auto 7.
Qed.

Lemma debounceScrollIntoView_arms (st : St) :
  handlesPositive (browser st) ->
  exists st', debounceScrollIntoView st = (Normal tt, st') /\ armsScroll st st'.
Proof.
  intros [_ Hpos]. eexists. split; [run; reflexivity|].
  unfold armsScroll. simpl.
  replace (filter (fun t => negb (handle t =? 0)) (pending (browser st)))
    with (pending (browser st)); [auto 7|].
  induction Hpos as [|t r Ht _ IH]; simpl; [reflexivity|].
  destruct (Z.eqb_spec (handle t) 0); [lia|]. simpl. rewrite <- IH. reflexivity.
Qed.

Lemma scrollCount_fired (b b' : Browser) (el : HTMLElement) (n : nat) :
  trace b' = trace b ++ fired (defined el) n ->
  scrollCount b' = (scrollCount b + n)%nat.
Proof.
  intros E. unfold scrollCount. rewrite E, filter_app, length_app. f_equal.
  clear E. simpl.
  induction n as [|n IH]; simpl; [reflexivity | rewrite IH; reflexivity].
Qed.

Section Bursts.

Variable el : HTMLElement.

(** What a run of requests and waits keeps true. *)
Let Inv (st : St) : Prop :=
  chatFooter (browser st) = defined el /\
  handlesPositive (browser st) /\
  timersArmed (browser st).

(** Scrolls performed plus scrolls still armed. *)
Let owed (st : St) : nat :=
  (scrollCount (browser st) + List.length (pending (browser st)))%nat.

Lemma debounceScrollIntoView_owed (st : St) :
  Inv st ->
  exists st',
    debounceScrollIntoView st = (Normal tt, st') /\ Inv st' /\
    owed st' = S (owed st).
Proof.
  intros (Hfooter & Hpos & Harmed).
  destruct (debounceScrollIntoView_arms st Hpos)
    as (st' & E & (A1 & A2 & A3 & A4 & A5 & A6)).
  exists st'. split; [exact E|]. split; [split; [|split]|].
  - congruence.
  - destruct Hpos as [Hnext Hall]. unfold handlesPositive.
    rewrite A3, A4. split; [lia|].
    apply Forall_app. split; [exact Hall|].
    constructor; [simpl; lia | constructor].
  - unfold timersArmed in *. rewrite A2, A4.
    apply Forall_app. split; [exact Harmed|].
    constructor; [simpl; lia | constructor].
  - unfold owed, scrollCount. rewrite A4, A6, length_app. simpl. lia.
Qed.

Lemma advance_owed (n : nat) (st : St) :
  Inv st ->
  exists st',
    advance n st = (Normal tt, st') /\ Inv st' /\ owed st' = owed st.
Proof.
  intros (Hfooter & [Hnext Hpos] & Harmed).
  destruct (advance_afterTimers n st) as (st' & E & (A1 & A2 & A3 & A4 & A5 & A6)).
  { eapply Forall_impl; [|exact Harmed]. simpl. intros t Ht. lia. }
  exists st'. split; [exact E|]. split; [split; [|split]|].
  - congruence.
  - unfold handlesPositive. rewrite A3, A4. split; [exact Hnext|].
    apply Forall_forall. intros t Ht. apply filter_In in Ht.
    destruct Ht as [Ht _]. revert t Ht. apply Forall_forall. exact Hpos.
  - unfold timersArmed in *. rewrite A2, A4.
    apply Forall_forall. intros t Ht. apply filter_In in Ht.
    destruct Ht as [Hin Hlate].
    pose proof (proj1 (Forall_forall _ _) Harmed t Hin) as Ht.
    cbv beta in Ht.
    destruct (Z.leb_spec (due t) (clock (browser st) + Z.of_nat n));
      [discriminate | lia].
  - unfold owed. rewrite Hfooter in A6.
    rewrite (scrollCount_fired _ _ _ _ A6), A4.
    rewrite <- (filter_length
                  (fun t => due t <=? clock (browser st) + Z.of_nat n)
                  (pending (browser st))).
    lia.
Qed.

Lemma burst_owed (gaps : list nat) (st : St) :
  Inv st ->
  exists st',
    burst gaps st = (Normal tt, st') /\ Inv st' /\
    owed st' = (owed st + List.length gaps + 1)%nat.
Proof.
  revert st. induction gaps as [|g rest IH]; intros st Hinv.
  - destruct (debounceScrollIntoView_owed st Hinv) as (st1 & E1 & Hinv1 & Ho1).
    exists st1. split; [|split; [exact Hinv1 | simpl; lia]].
    simpl. unfold bind. rewrite E1. reflexivity.
  - destruct (debounceScrollIntoView_owed st Hinv) as (st1 & E1 & Hinv1 & Ho1).
    destruct (advance_owed g st1 Hinv1) as (st2 & E2 & Hinv2 & Ho2).
    destruct (IH st2 Hinv2) as (st3 & E3 & Hinv3 & Ho3).
    exists st3. split; [|split; [exact Hinv3 | simpl; lia]].
    simpl. unfold bind. rewrite E1, E2. exact E3.
Qed.

Lemma quiet_period_pays (st : St) :
  Inv st ->
  exists st',
    advance 500 st = (Normal tt, st') /\
    pending (browser st') = [] /\
    scrollCount (browser st') = owed st.
Proof.
  intros Hinv.
  destruct (advance_owed 500 st Hinv) as (st' & E & (_ & _ & Harmed') & Ho).
  assert (Hnone : pending (browser st') = []).
  { destruct Hinv as (_ & _ & Harmed).
    destruct (advance_afterTimers 500 st) as (st0 & E0 & (_ & _ & _ & A4 & _)).
    { eapply Forall_impl; [|exact Harmed]. simpl. intros t Ht. lia. }
    rewrite E in E0. injection E0 as <-. rewrite A4.
    apply filter_all_due. change (Z.of_nat 500) with 500.
    eapply Forall_impl; [|exact Harmed]. cbv beta. intros t Ht. exact (proj2 Ht). }
  exists st'. split; [exact E|]. split; [exact Hnone|].
  unfold owed in *. rewrite Hnone in Ho. simpl in Ho.
  rewrite Nat.add_0_r in Ho. exact Ho.
Qed.

(** X11: every request of a burst ends in a scroll of its own: with
    the footer in place and no timer pending, a burst of requests
    separated by any waits, followed by the quiet period, performs as
    many scrolls as there were requests. *)
Lemma burst_fires_every_request (gaps : list nat) (st : St) :
  chatFooter (browser st) = defined el ->
  handlesPositive (browser st) ->
  pending (browser st) = [] ->
  exists st1 st2,
    burst gaps st = (Normal tt, st1) /\
    advance 500 st1 = (Normal tt, st2) /\
    scrollCount (browser st2) =
      (scrollCount (browser st) + List.length gaps + 1)%nat.
Proof.
  intros Hfooter Hpos Hnone.
  assert (Hinv : Inv st).
  { split; [exact Hfooter|]. split; [exact Hpos|].
    unfold timersArmed. rewrite Hnone. constructor. }
  destruct (burst_owed gaps st Hinv) as (st1 & E1 & Hinv1 & Ho1).
  destruct (quiet_period_pays st1 Hinv1) as (st2 & E2 & _ & Hc).
  exists st1, st2. split; [exact E1|]. split; [exact E2|].
  rewrite Hc, Ho1. unfold owed. rewrite Hnone. simpl. lia.
Qed.

End Bursts.

(** C9: a firing timer scrolls the footer into view, smoothly and
    centred, when the footer is there, and does nothing at all, error
    report included, when it is not; a request made with no timer
    pending has not fired 499 units later, has fired after the quiet
    period of 500 units and leaves no timer behind. *)
Theorem scheduled_scroll_fires (t : Timer) (st : St) :
  match chatFooter (browser st) with
  | defined el =>
      exists st',
        fire t st = (Normal tt, st') /\
        extendsTrace st st'
          [ScrollIntoView el {| behavior := smooth; block := center |}]
  | undefined => fire t st = (Normal tt, st)
  end /\
  (handlesPositive (browser st) -> pending (browser st) = [] ->
   exists st1 st2 st3,
     debounceScrollIntoView st = (Normal tt, st1) /\
     advance 499 st1 = (Normal tt, st2) /\
     trace (browser st2) = trace (browser st) /\
     advance 500 st1 = (Normal tt, st3) /\
     pending (browser st3) = [] /\
     trace (browser st3) =
       trace (browser st) ++
       match chatFooter (browser st) with
       | defined el => [ScrollIntoView el {| behavior := smooth; block := center |}]
       | undefined => []
       end).
Proof.
  split.
  - destruct (fire_footer t st) as (st' & E & Ht).
    destruct (chatFooter (browser st)) as [|el] eqn:Ef.
    + rewrite E. f_equal.
      destruct Ht as (A1 & A2 & A3 & A4 & A5 & A6).
      simpl in A6. rewrite app_nil_r in A6.
      destruct st as [c b], st' as [c' b']. simpl in *. subst c'.
      destruct b, b'. simpl in *. congruence.
    + exists st'. split; [exact E | exact Ht].
  - intros Hpos Hnone.
    assert (F499 : forall c, (c + 500 <=? c + Z.of_nat 499) = false).
    { intros c. change (Z.of_nat 499) with 499. apply Z.leb_gt. lia. }
    assert (F500 : forall c, (c + 500 <=? c + Z.of_nat 500) = true).
    { intros c. change (Z.of_nat 500) with 500. apply Z.leb_le. lia. }
    destruct (debounceScrollIntoView_arms st Hpos)
      as (st1 & E1 & (A1 & A2 & A3 & A4 & A5 & A6)).
    rewrite Hnone in A4. simpl in A4.
    assert (Hl : Forall (fun t => clock (browser st1) < due t) (pending (browser st1))).
    { rewrite A2, A4. constructor; [simpl; lia | constructor]. }
    destruct (advance_afterTimers 499 st1 Hl) as (st2 & E2 & (_ & _ & _ & _ & _ & B6)).
    destruct (advance_afterTimers 500 st1 Hl) as (st3 & E3 & (_ & _ & _ & C4 & _ & C6)).
    exists st1, st2, st3.
    rewrite A2, A4, A5, A6 in *. simpl in B6, C4, C6.
    rewrite F499 in B6. rewrite F500 in C4, C6. simpl in B6, C4, C6.
    repeat split; try assumption.
    rewrite B6. unfold fired. destruct (chatFooter (browser st)); apply app_nil_r.
Qed.

(** C2 fails on the code: [debounceScrollIntoView] starts from a fresh
    local handle [0], so [clearTimeout] cancels nothing.  Three
    requests 100 units apart leave three timers pending, and each of
    them scrolls once the quiet period has passed. *)
Theorem debounce_does_not_coalesce :
  let st := snd (burst [100; 100]%nat initialSt) in
  List.length (pending (browser st)) = 3%nat /\
  scrollCount (browser (snd (advance 500 st))) = 3%nat.
Proof.
  vm_compute. split; reflexivity.
Qed.

(** ** Further properties of the projection *)

Lemma Returns_at {A : Type} (c : ChatThreadComponent) (m : M A) (P : A -> Prop) :
  Returns m P -> ReturnsAt c m P.
Proof.
  intros Hm st Hc. destruct (Hm st) as (a & st' & E & Et & Pa).
  exists a, st'. repeat split; [exact E | congruence | exact Pa].
Qed.

Lemma ReturnsAt_mapM {A B : Type} (c : ChatThreadComponent) (f : A -> M B)
      (P : A -> B -> Prop) (l : list A) :
  (forall x, ReturnsAt c (f x) (P x)) -> ReturnsAt c (mapM f l) (Forall2 P l).
Proof.
  intros Hf. induction l as [|x r IH]; intros st Hc; simpl.
  - exists [], st. repeat split; [exact Hc | constructor].
  - destruct (Hf x st Hc) as (y & st1 & E1 & Hc1 & Py).
    destruct (IH st1 Hc1) as (ys & st2 & E2 & Hc2 & Pys).
    exists (y :: ys), st2. unfold bind. rewrite E1, E2.
    repeat split; [exact Hc2 | constructor; assumption].
Qed.

Lemma render_messages_at (c : ChatThreadComponent)
      (P : ChatThreadEntry -> Html -> Prop) :
  (forall message, ReturnsAt c (renderMessage message) (P message)) ->
  forall st, this st = c ->
    exists messages,
      rendersAs st messages /\ Forall2 P (chatThread c) messages.
Proof.
  intros HP st Hc. unfold rendersAs, render, bind at 1, getThis.
  destruct (ReturnsAt_mapM c renderMessage P (chatThread c) HP st Hc)
    as (messages & st' & E & _ & HF).
  exists messages. unfold bind. rewrite Hc, E. simpl. auto.
Qed.

(** The list item of a message: its own frame around the action row,
    the text blocks and the three optional regions. *)
Lemma renderMessage_shape (c : ChatThreadComponent) (message : ChatThreadEntry)
      (Q : Html -> Prop) (P : ChatMessageText -> Html -> Prop) :
  (isUserMessage message = false ->
   ReturnsAt c (renderResponseActions message) Q) ->
  (forall textEntry, Returns (renderTextEntry textEntry) (P textEntry)) ->
  ReturnsAt c (renderMessage message)
    (fun li =>
       exists actions texts,
         li =
         Element "li"
           [attr "class"
                 ("chat__listItem " ++
                  (if isUserMessage message then "user-message"
                   else String.EmptyString))%string]
           [Element "div"
              [attr "class"
                    ("chat__txt " ++
                     (if isUserMessage message then "user-message"
                      else String.EmptyString))%string]
              [actions;
               Items texts;
               renderCitation (citations message);
               renderFollowupQuestions (followupQuestions message);
               match error message with
               | defined e => renderError e
               | undefined => Blank
               end];
            Element "p" [attr "class" "chat__txt--info"]
              [Element "span" [attr "class" "timestamp"]
                       [TextNode (timestamp message)];
               TextNode ",";
               Element "span" [attr "class" "user"]
                 [TextNode (if isUserMessage message then "You"
                            else USER_IS_BOT globalConfig)]]] /\
         (if isUserMessage message then actions = Blank else Q actions) /\
         Forall2 P (text message) texts).
Proof.
  intros HQ HP st Hc. unfold renderMessage, bind.
  destruct (isUserMessage message) eqn:Eu.
  - unfold ret at 1.
    destruct (ReturnsAt_mapM c renderTextEntry P (text message)
                (fun t => Returns_at c _ _ (HP t)) st Hc)
      as (texts & st' & E & Hc' & HF).
    rewrite E. eexists _, st'. split; [reflexivity|]. split; [exact Hc'|].
    exists Blank, texts. auto.
  - destruct (HQ eq_refl st Hc) as (actions & st1 & E1 & Hc1 & Qa).
    rewrite E1.
    destruct (ReturnsAt_mapM c renderTextEntry P (text message)
                (fun t => Returns_at c _ _ (HP t)) st1 Hc1)
      as (texts & st' & E & Hc' & HF).
    rewrite E. eexists _, st'. split; [reflexivity|]. split; [exact Hc'|].
    exists actions, texts. auto.
Qed.

Ltac each_selector H :=
  simpl in H;
  repeat (destruct H as [<-|H]); [..|contradiction].

Lemma select_message_detail (p : Html -> bool) (user : bool)
      (actions : Html) (texts : list Html) (cit fol err : Html) (ts who : string) :
  In p detailSelectors ->
  select p
    (Element "li"
       [attr "class"
             ("chat__listItem " ++
              (if user then "user-message" else String.EmptyString))%string]
       [Element "div"
          [attr "class"
                ("chat__txt " ++
                 (if user then "user-message" else String.EmptyString))%string]
          [actions; Items texts; cit; fol; err];
        Element "p" [attr "class" "chat__txt--info"]
          [Element "span" [attr "class" "timestamp"] [TextNode ts];
           TextNode ",";
           Element "span" [attr "class" "user"] [TextNode who]]]) =
  select p actions ++ flat_map (select p) texts ++
  select p cit ++ select p fol ++ select p err ++
  select p (Element "span" [attr "class" "timestamp"] [TextNode ts]) ++
  select p (Element "span" [attr "class" "user"] [TextNode who]).
Proof.
  intros Hp.
  each_selector Hp; destruct user; simpl;
    rewrite ?app_nil_r, <- ?app_assoc; reflexivity.
Qed.

Lemma renderCitation_no_detail (cs : Js (list Citation)) (p : Html -> bool) :
  In p (removelast detailSelectors) -> select p (renderCitation cs) = [].
Proof.
  intros Hp. unfold renderCitation.
  destruct cs as [|cs]; [each_selector Hp; reflexivity|].
  destruct (0 <? Z.of_nat (List.length cs)); each_selector Hp; reflexivity.
Qed.

Lemma renderCitation_list (cs : Js (list Citation)) :
  select (hasTag "citation-list") (renderCitation cs) =
  if presentAndNonEmpty cs
  then match cs with
       | defined l =>
           [Element "citation-list"
              [propCitations l; propLabel (CITATIONS_LABEL globalConfig);
               listener "on-citation-click" onCitationClick] []]
       | undefined => []
       end
  else [].
Proof.
  unfold renderCitation, presentAndNonEmpty.
  destruct cs as [|cs]; [reflexivity|].
  destruct (0 <? Z.of_nat (List.length cs)); reflexivity.
Qed.

Lemma renderFollowupQuestions_no_detail (qs : Js (list string)) (p : Html -> bool) :
  In p detailSelectors -> select p (renderFollowupQuestions qs) = [].
Proof.
  intros Hp. unfold renderFollowupQuestions.
  destruct qs as [|qs]; [each_selector Hp; reflexivity|].
  destruct (0 <? Z.of_nat (List.length qs)); [|each_selector Hp; reflexivity].
  each_selector Hp; simpl; rewrite flat_map_select_map_nil; reflexivity.
Qed.

Lemma renderError_no_detail (e : Js ChatError) (p : Html -> bool) :
  In p (firstn 2 detailSelectors ++ skipn 3 detailSelectors) ->
  select p match e with defined e' => renderError e' | undefined => Blank end = [].
Proof.
  intros Hp. destruct e; each_selector Hp; reflexivity.
Qed.

Lemma renderError_paragraph (e : Js ChatError) :
  select (hasClass "chat__txt error")
         match e with defined e' => renderError e' | undefined => Blank end =
  match e with
  | defined e' => [Element "p" [attr "class" "chat__txt error"] [TextNode (message e')]]
  | undefined => []
  end.
Proof.
  destruct e; reflexivity.
Qed.

Lemma flat_map_select_Forall2 {X : Type} (p : Html -> bool) (f : X -> list Html)
      (l : list X) (ns : list Html) :
  Forall2 (fun x n => select p n = f x) l ns ->
  flat_map (select p) ns = flat_map f l.
Proof.
  induction 1 as [|x n l ns Hn _ IH]; simpl; [reflexivity|].
  rewrite Hn, IH. reflexivity.
Qed.

Lemma renderTextEntry_details (textEntry : ChatMessageText) :
  Returns (renderTextEntry textEntry) (textEntryDetails textEntry).
Proof.
  unfold renderTextEntry.
  eapply Returns_bind; [apply Returns_getThis|]. intros c _.
  eapply Returns_bind with (P := fun _ => True).
  { destruct (isProcessingResponse c);
      [apply Returns_debounceScrollIntoView | apply Returns_ret; exact I]. }
  intros _ _. apply Returns_ret.
  unfold textEntryDetails, stepsOf, presentAndNonEmpty.
  destruct (followingSteps textEntry) as [|steps].
  - repeat split. intros p Hp. each_selector Hp; reflexivity.
  - destruct steps as [|s steps].
    + repeat split. intros p Hp. each_selector Hp; reflexivity.
    + change (0 <? Z.of_nat (List.length (s :: steps))) with true. cbv iota.
      split; [|split; [|split]].
      * simpl. rewrite flat_map_select_map_nil; reflexivity.
      * simpl. rewrite flat_map_select_map_self by reflexivity.
        rewrite !app_nil_r. reflexivity.
      * simpl. rewrite flat_map_select_map_nil; reflexivity.
      * intros p Hp.
        each_selector Hp; simpl; rewrite flat_map_select_map_nil; reflexivity.
Qed.

Lemma renderResponseActions_details (c : ChatThreadComponent)
      (entry : ChatThreadEntry) :
  ReturnsAt c (renderResponseActions entry) (actionRowDetails c entry).
Proof.
  intros st Hc. unfold renderResponseActions, bind, getThis, ret. rewrite Hc.
  eexists _, st. split; [reflexivity|]. split; [exact Hc|].
  unfold actionRowDetails.
  destruct (isResponseCopied c);
    (split; [|split];
     [ simpl; rewrite flat_map_select_map_nil by reflexivity; reflexivity
     | intros p Hp; each_selector Hp; simpl;
       rewrite flat_map_select_map_nil by reflexivity; reflexivity
     | eexists _, _; split;
       [ simpl; rewrite flat_map_select_map_self by reflexivity; reflexivity
       | split;
         [ induction (actionButtons c) as [|actionButton r IH]; simpl;
           constructor; [repeat split | exact IH]
         | repeat split ] ] ]).
Qed.

Lemma ReturnsAt_weaken {A : Type} (c : ChatThreadComponent) (m : M A)
      (P Q : A -> Prop) :
  ReturnsAt c m P -> (forall a, P a -> Q a) -> ReturnsAt c m Q.
Proof.
  intros Hm HPQ st Hc. destruct (Hm st Hc) as (a & st' & E & Hc' & Pa).
  exists a, st'. auto.
Qed.

Lemma Returns_and {A : Type} (m : M A) (P Q : A -> Prop) :
  Returns m P -> Returns m Q -> Returns m (fun a => P a /\ Q a).
Proof.
  intros HP HQ st.
  destruct (HP st) as (a & st1 & E1 & Et & Pa).
  destruct (HQ st) as (a' & st2 & E2 & _ & Qa).
  rewrite E1 in E2. injection E2 as <- <-.
  exists a, st1. auto.
Qed.

Lemma flat_map_singleton_map {X Y : Type} (g : X -> Y) (l : list X) :
  flat_map (fun x => [g x]) l = map g l.
Proof.
  induction l as [|x r IH]; simpl; [reflexivity | rewrite IH; reflexivity].
Qed.

Lemma step_lists_count (l : list ChatMessageText) (texts : list Html) :
  Forall2 textEntryDetails l texts ->
  List.length (flat_map (select (hasClass "items__list steps")) texts) =
  List.length (filter (fun textEntry =>
                         presentAndNonEmpty (followingSteps textEntry)) l).
Proof.
  induction 1 as [|t n l ns (_ & _ & Hn & _) _ IH]; simpl; [reflexivity|].
  rewrite length_app, Hn, IH.
  destruct (presentAndNonEmpty (followingSteps t)); reflexivity.
Qed.

Lemma texts_no_detail (l : list ChatMessageText) (texts : list Html)
      (p : Html -> bool) :
  Forall2 textEntryDetails l texts ->
  In p (firstn 3 detailSelectors ++ skipn 6 detailSelectors) ->
  flat_map (select p) texts = [].
Proof.
  intros HF Hp. apply flat_map_select_nil.
  induction HF as [|t n l ns (_ & _ & _ & Hn) _ IH]; constructor; auto.
Qed.

Lemma renderMessage_details (c : ChatThreadComponent) (entry : ChatThreadEntry) :
  ReturnsAt c (renderMessage entry) (messageDetails c entry).
Proof.
  eapply ReturnsAt_weaken.
  { apply renderMessage_shape
      with (Q := actionRowDetails c entry)
           (P := fun t n =>
                   textEntryDetails t n /\
                   forall cl, In cl regionClasses -> select (hasClass cl) n = []).
    - intros _. apply renderResponseActions_details.
    - intros t. apply Returns_and;
        [apply renderTextEntry_details | apply renderTextEntry_regions]. }
  intros li (actions & texts & -> & Hactions & HF).
  assert (HFd : Forall2 textEntryDetails (text entry) texts).
  { eapply Forall2_impl; [|exact HF]. intros t n [H _]. exact H. }
  assert (HFr : Forall2 (fun (_ : ChatMessageText) n =>
                           forall cl, In cl regionClasses ->
                                      select (hasClass cl) n = [])
                        (text entry) texts).
  { eapply Forall2_impl; [|exact HF]. intros t n [_ H]. exact H. }
  unfold messageDetails.
  split; [reflexivity|]. split; [reflexivity|].
  rewrite !select_message_detail by (simpl; auto 10).
  rewrite !renderFollowupQuestions_no_detail by (simpl; auto 10).
  rewrite (renderError_no_detail _ (hasClass "timestamp")),
    (renderError_no_detail _ (hasClass "user")),
    (renderError_no_detail _ (hasClass "chat__txt--entry")),
    (renderError_no_detail _ (hasClass "items__listItem--step")),
    (renderError_no_detail _ (hasClass "items__list steps")),
    (renderError_no_detail _ (hasTag "button")),
    (renderError_no_detail _ (hasTag "citation-list")) by (simpl; auto 10).
  rewrite renderError_paragraph, renderCitation_list.
  rewrite (renderCitation_no_detail _ (hasClass "timestamp")),
    (renderCitation_no_detail _ (hasClass "user")),
    (renderCitation_no_detail _ (hasClass "chat__txt error")),
    (renderCitation_no_detail _ (hasClass "chat__txt--entry")),
    (renderCitation_no_detail _ (hasClass "items__listItem--step")),
    (renderCitation_no_detail _ (hasClass "items__list steps")),
    (renderCitation_no_detail _ (hasTag "button")) by (simpl; auto 10).
  rewrite (texts_no_detail _ _ (hasClass "timestamp") HFd),
    (texts_no_detail _ _ (hasClass "user") HFd),
    (texts_no_detail _ _ (hasClass "chat__txt error") HFd),
    (texts_no_detail _ _ (hasTag "button") HFd),
    (texts_no_detail _ _ (hasTag "citation-list") HFd) by (simpl; auto 10).
  rewrite (flat_map_select_Forall2 (hasClass "chat__txt--entry")
             (fun t => [Element "p" [attr "class" "chat__txt--entry"]
                                [unsafeHTML (value t)]])
             (text entry) texts),
    (flat_map_select_Forall2 (hasClass "items__listItem--step")
             (fun t => map (fun followingStep =>
                              Element "li" [attr "class" "items__listItem--step"]
                                      [unsafeHTML followingStep])
                           (stepsOf t))
             (text entry) texts).
  2: { eapply Forall2_impl; [|exact HFd]. intros t n (_ & H & _). exact H. }
  2: { eapply Forall2_impl; [|exact HFd]. intros t n (H & _). exact H. }
  rewrite flat_map_singleton_map.
  assert (Hno : forall p,
             In p (firstn 6 detailSelectors ++ skipn 7 detailSelectors) ->
             select p actions = []).
  { intros p Hp. destruct (isUserMessage entry).
    - subst actions. each_selector Hp; reflexivity.
    - destruct Hactions as (_ & H & _). apply H. exact Hp. }
  rewrite (Hno (hasClass "timestamp")), (Hno (hasClass "user")),
    (Hno (hasClass "chat__txt error")), (Hno (hasClass "chat__txt--entry")),
    (Hno (hasClass "items__listItem--step")),
    (Hno (hasClass "items__list steps")),
    (Hno (hasTag "citation-list")) by (simpl; auto 10).
  do 5 (split; [simpl; rewrite ?app_nil_r; reflexivity|]).
  split; [simpl; rewrite ?app_nil_r; apply (step_lists_count _ _ HFd)|].
  split; [simpl; rewrite ?app_nil_r; reflexivity|].
  destruct (isUserMessage entry).
  - subst actions. simpl. rewrite ?app_nil_r. reflexivity.
  - exists actions. destruct Hactions as (Hrow & Hrest).
    split; [|split; [|split; assumption]].
    + unfold actionButtonRows.
      rewrite (select_message "chat__header" false actions texts)
        by (simpl; auto).
      rewrite (texts_regions HFr), renderCitation_regions,
        renderFollowupQuestions_regions, renderError_regions by (simpl; auto).
      simpl. rewrite !app_nil_r. exact Hrow.
    + simpl. rewrite ?app_nil_r. reflexivity.
Qed.

Lemma render_details (st : St) :
  exists messages,
    rendersAs st messages /\
    Forall2 (messageDetails (this st)) (chatThread (this st)) messages.
Proof.
  apply (render_messages_at (this st)); [|reflexivity].
  intros entry. apply renderMessage_details.
Qed.

(** X1: [render] yields one list item per entry, in the order of the
    transcript; the item is marked [user-message] exactly for user
    entries and shows the entry's timestamp and, as author, "You" for a
    user entry and the configured bot label otherwise. *)
Theorem render_item_per_entry (st : St) :
  exists messages,
    rendersAs st messages /\
    List.length messages = List.length (chatThread (this st)) /\
    Forall2
      (fun entry li =>
         hasTag "li" li = true /\
         attribute "class" li =
           [if isUserMessage entry then "chat__listItem user-message"
            else "chat__listItem "] /\
         select (hasClass "timestamp") li =
           [Element "span" [attr "class" "timestamp"] [TextNode (timestamp entry)]] /\
         select (hasClass "user") li =
           [Element "span" [attr "class" "user"]
              [TextNode (if isUserMessage entry then "You"
                         else USER_IS_BOT globalConfig)]])
      (chatThread (this st)) messages.
Proof.
  destruct (render_details st) as (messages & Hr & HF).
  exists messages. split; [exact Hr|]. split.
  - symmetry. eapply Forall2_length. exact HF.
  - eapply Forall2_impl; [|exact HF].
    intros entry li (Htag & Hclass & Hts & Huser & _).
    repeat split; try assumption.
    rewrite Hclass. destruct (isUserMessage entry); reflexivity.
Qed.

(** X2: the list item of an entry holds the error paragraph, with the
    error's message as its text, exactly when the entry has an error;
    this does not depend on who wrote the entry. *)
Theorem error_paragraph_iff_error (st : St) :
  exists messages,
    rendersAs st messages /\
    Forall2
      (fun entry li =>
         select (hasClass "chat__txt error") li =
         match error entry with
         | defined e =>
             [Element "p" [attr "class" "chat__txt error"] [TextNode (message e)]]
         | undefined => []
         end)
      (chatThread (this st)) messages.
Proof.
  destruct (render_details st) as (messages & Hr & HF).
  exists messages. split; [exact Hr|].
  eapply Forall2_impl; [|exact HF].
  intros entry li (_ & _ & _ & _ & Herr & _). exact Herr.
Qed.

(** X3: the list item of an entry holds one paragraph per text block,
    in order, with the block's value as raw HTML; its step items are the
    steps of all blocks in order, and it holds one ordered list per
    block whose [followingSteps] is present and non-empty.  An entry
    without text blocks has none of these. *)
Theorem text_blocks_and_steps (st : St) :
  exists messages,
    rendersAs st messages /\
    Forall2
      (fun entry li =>
         select (hasClass "chat__txt--entry") li =
           map (fun textEntry =>
                  Element "p" [attr "class" "chat__txt--entry"]
                          [unsafeHTML (value textEntry)])
               (text entry) /\
         select (hasClass "items__listItem--step") li =
           flat_map (fun textEntry =>
                       map (fun followingStep =>
                              Element "li" [attr "class" "items__listItem--step"]
                                      [unsafeHTML followingStep])
                           (stepsOf textEntry))
                    (text entry) /\
         List.length (select (hasClass "items__list steps") li) =
           List.length (filter (fun textEntry =>
                                  presentAndNonEmpty (followingSteps textEntry))
                               (text entry)))
      (chatThread (this st)) messages.
Proof.
  destruct (render_details st) as (messages & Hr & HF).
  exists messages. split; [exact Hr|].
  eapply Forall2_impl; [|exact HF].
  intros entry li (_ & _ & _ & _ & _ & Hp & Hsteps & Hol & _). auto.
Qed.

(** X4: the list item of a user entry holds no button at all; the item
    of any other entry holds exactly one action row, whose buttons are
    one per entry of [actionButtons], in order, followed by the copy
    button.  Each caller-supplied button carries its label as title and
    text, its icon, the test id [chat-action-button-<id>]; it is
    disabled by its own [isDisabled] flag alone, whatever the
    component's [isDisabled], and its click listener is
    [actionButtonClicked] with that button and this entry. *)
Theorem action_row_buttons (st : St) :
  exists messages,
    rendersAs st messages /\
    Forall2
      (fun entry li =>
         if isUserMessage entry
         then select (hasTag "button") li = []
         else exists row buttons copyButton,
             actionButtonRows li = [row] /\
             select (hasTag "button") li = buttons ++ [copyButton] /\
             Forall2
               (fun actionButton button =>
                  attribute "title" button = [ChatActionButton.label actionButton] /\
                  attribute "data-testid" button =
                    [("chat-action-button-" ++
                      ChatActionButton.id actionButton)%string] /\
                  booleanAttribute "disabled" button =
                    [ChatActionButton.isDisabled actionButton] /\
                  listeners "click" button =
                    [onActionButtonClicked actionButton entry] /\
                  childNodes button =
                    [Element "span" [attr "class" "chat__header--span"]
                             [TextNode (ChatActionButton.label actionButton)];
                     unsafeSVG (ChatActionButton.svgIcon actionButton)])
               (actionButtons (this st)) buttons)
      (chatThread (this st)) messages.
Proof.
  destruct (render_details st) as (messages & Hr & HF).
  exists messages. split; [exact Hr|].
  eapply Forall2_impl; [|exact HF].
  intros entry li (_ & _ & _ & _ & _ & _ & _ & _ & _ & Hb).
  destruct (isUserMessage entry); [exact Hb|].
  destruct Hb as (row & Hrow & Hsel & _ & _ & buttons & copyButton & Hbs & Hall & _).
  exists row, buttons, copyButton. rewrite Hsel. auto.
Qed.

(** X5: the copy button is the last button of every non-user entry; it
    is disabled exactly when the component's [isDisabled] is set, its
    click listener is [copyResponseToClipboard], and it shows the
    "copied" message and the success icon when [isResponseCopied] is
    set, else the copy label and the copy icon.  The flag belongs to
    the component, so all entries show the same. *)
Theorem copy_button_reflects_state (st : St) :
  exists messages,
    rendersAs st messages /\
    Forall2
      (fun entry li =>
         if isUserMessage entry then True
         else exists buttons copyButton,
             select (hasTag "button") li = buttons ++ [copyButton] /\
             attribute "data-testid" copyButton =
               ["chat-action-button-copy-response"] /\
             attribute "title" copyButton =
               [COPY_RESPONSE_BUTTON_LABEL_TEXT globalConfig] /\
             booleanAttribute "disabled" copyButton = [isDisabled (this st)] /\
             listeners "click" copyButton = [onCopyResponseToClipboard] /\
             childNodes copyButton =
               [Element "span" [attr "class" "chat__header--span"]
                        [TextNode (if isResponseCopied (this st)
                                   then COPIED_SUCCESSFULLY_MESSAGE globalConfig
                                   else COPY_RESPONSE_BUTTON_LABEL_TEXT globalConfig)];
                if isResponseCopied (this st)
                then unsafeSVG iconSuccess
                else unsafeSVG iconCopyToClipboard])
      (chatThread (this st)) messages.
Proof.
  destruct (render_details st) as (messages & Hr & HF).
  exists messages. split; [exact Hr|].
  eapply Forall2_impl; [|exact HF].
  intros entry li (_ & _ & _ & _ & _ & _ & _ & _ & _ & Hb).
  destruct (isUserMessage entry); [exact I|].
  destruct Hb as (row & _ & Hsel & _ & _ & buttons & copyButton & Hbs & _ & Hc).
  destruct Hc as (Htitle & Hid & Hdis & Hclick & Hch).
  exists buttons, copyButton. rewrite Hsel. repeat split; assumption.
Qed.

(** X6: after a click on the copy button, whatever the state before,
    the next render shows the "copied" message and the success icon on
    the copy button of every non-user entry of the unchanged
    transcript, not only on the entry whose button was clicked. *)
Theorem copy_then_render_shows_copied (event : Event) (st : St) :
  let st' := snd (runHandler onCopyResponseToClipboard event st) in
  exists messages,
    rendersAs st' messages /\
    Forall2
      (fun entry li =>
         if isUserMessage entry then True
         else exists buttons copyButton,
             select (hasTag "button") li = buttons ++ [copyButton] /\
             childNodes copyButton =
               [Element "span" [attr "class" "chat__header--span"]
                        [TextNode (COPIED_SUCCESSFULLY_MESSAGE globalConfig)];
                unsafeSVG iconSuccess])
      (chatThread (this st)) messages.
Proof.
  intros st'.
  destruct (copyResponseToClipboard_once st) as (st1 & E1 & Hthread & Hcopied & _).
  assert (Est : st' = st1).
  { unfold st'. change (runHandler onCopyResponseToClipboard event st)
      with (copyResponseToClipboard st). rewrite E1. reflexivity. }
  rewrite Est. clear st' Est.
  destruct (render_details st1) as (messages & Hr & HF).
  exists messages. split; [exact Hr|].
  rewrite Hthread in HF.
  eapply Forall2_impl; [|exact HF].
  intros entry li (_ & _ & _ & _ & _ & _ & _ & _ & _ & Hb).
  destruct (isUserMessage entry); [exact I|].
  destruct Hb as (row & _ & Hsel & _ & _ & buttons & copyButton & Hbs & _ & Hc).
  exists buttons, copyButton. rewrite Hsel. split; [exact Hbs|].
  destruct Hc as (_ & _ & _ & _ & Hch). rewrite Hch, Hcopied. reflexivity.
Qed.

(** ** Further properties of the dispatch *)

Lemma flat_map_select_map_single {X : Type} (p : Html -> bool)
      (f g : X -> Html) (l : list X) :
  (forall x, select p (f x) = [g x]) -> flat_map (select p) (map f l) = map g l.
Proof.
  intros Hf. induction l as [|x r IH]; simpl; [reflexivity|].
  rewrite Hf, IH. reflexivity.
Qed.

Lemma followupItems_links (entry : ChatThreadEntry) :
  followupItems (renderFollowupQuestions (followupQuestions entry)) =
  map (fun followupQuestion =>
         Element "a"
           [attr "class" "items__link"; attr "href" "#";
            attr "data-testid" "followUpQuestion";
            listener "click" (onFollowupQuestionClick followupQuestion)]
           [TextNode followupQuestion])
      (questionsOf entry).
Proof.
  unfold questionsOf, renderFollowupQuestions, followupItems.
  destruct (followupQuestions entry) as [|qs]; [reflexivity|].
  destruct qs as [|q qs]; [reflexivity|].
  change (0 <? Z.of_nat (List.length (q :: qs))) with true. cbv iota.
  simpl.
  rewrite (flat_map_select_map_single _ _
             (fun followupQuestion =>
                Element "a"
                  [attr "class" "items__link"; attr "href" "#";
                   attr "data-testid" "followUpQuestion";
                   listener "click" (onFollowupQuestionClick followupQuestion)]
                  [TextNode followupQuestion])) by reflexivity.
  rewrite !app_nil_r. reflexivity.
Qed.

(** X7: the list item of any entry, user or not, holds one follow-up
    link per question of [followupQuestions], in order (none when the
    field is missing); each link is an [a] element with [href="#"]
    whose text is its question, and a click on it calls
    [preventDefault] and then dispatches [on-followup-click] with that
    very question. *)
Theorem followup_link_per_question (st : St) (event : Event) :
  exists messages,
    rendersAs st messages /\
    Forall2
      (fun entry li =>
         Forall2
           (fun question link =>
              hasTag "a" link = true /\
              attribute "href" link = ["#"] /\
              childNodes link = [TextNode question] /\
              forall st0, exists st1,
                click link event st0 = (Normal tt, st1) /\
                extendsTrace st0 st1
                  [PreventDefault event;
                   DispatchEvent {| type := "on-followup-click";
                                    detail := followupDetail question;
                                    bubbles := true; composed := true |}])
           (questionsOf entry) (followupItems li))
      (chatThread (this st)) messages.
Proof.
  apply render_messages. intros entry.
  eapply Returns_weaken; [apply renderMessage_regions|].
  intros li (_ & _ & _ & Hitems). rewrite Hitems, followupItems_links.
  induction (questionsOf entry) as [|q qs IH]; simpl; constructor; [|exact IH].
  repeat split. intros st0.
  destruct (handleFollowupQuestionClick_notifies q event st0) as (st1 & E1 & Ht).
  exists st1. split; [|exact Ht].
  unfold click, bind. simpl. unfold bind. rewrite E1. reflexivity.
Qed.


Lemma at_last {A : Type} (l : list A) (x : A) : at_ (l ++ [x]) (-1) = defined x.
Proof.
  unfold at_. cbv zeta. change (-1 <? 0) with true. cbv iota.
  replace (Z.of_nat (List.length (l ++ [x])) + -1) with (Z.of_nat (List.length l))
    by (rewrite length_app; simpl; lia).
  destruct (Z.ltb_spec (Z.of_nat (List.length l)) 0); [lia|].
  destruct (Z.leb_spec (Z.of_nat (List.length (l ++ [x]))) (Z.of_nat (List.length l)))
    as [Hle|_]; [rewrite length_app in Hle; simpl in Hle; lia|].
  simpl. rewrite Nat2Z.id, nth_error_app2, Nat.sub_diag by lia. reflexivity.
Qed.

Lemma at_last_rev {A : Type} (l : list A) :
  at_ l (-1) = match rev l with x :: _ => defined x | [] => undefined end.
Proof.
  destruct l as [|y r] using rev_ind; [reflexivity|].
  rewrite at_last, rev_app_distr. reflexivity.
Qed.

(** X9: whatever entry the clicked copy button belongs to, the copy
    writes the value of the last text block of the last entry of the
    transcript, be that entry the user's or not, and [undefined] when
    that entry has no text block; it arms no timer and dispatches
    nothing. *)
Theorem copy_writes_last_block
        (event : Event) (st : St)
        (entries : list ChatThreadEntry) (entry : ChatThreadEntry) :
  chatThread (this st) = entries ++ [entry] ->
  exists st',
    runHandler onCopyResponseToClipboard event st = (Normal tt, st') /\
    trace (browser st') =
      trace (browser st) ++
      [ClipboardWriteText
         match rev (text entry) with
         | textEntry :: _ => defined (value textEntry)
         | [] => undefined
         end] /\
    pending (browser st') = pending (browser st).
Proof.
  intros Hthread.
  destruct (copyResponseToClipboard_once st) as (st' & E & _ & _ & Htrace).
  exists st'. split; [exact E|]. split.
  - rewrite Htrace, Hthread. unfold response.
    rewrite at_last. simpl. rewrite at_last_rev.
    destruct (rev (text entry)); reflexivity.
  - change (runHandler onCopyResponseToClipboard event st)
      with (copyResponseToClipboard st) in E.
    revert E. run. intros E. injection E as <-. reflexivity.
Qed.

(** ** Further properties of the scroll scheduler *)

Lemma armsScrolls_refl (st : St) : armsScrolls st st 0.
Proof.
  unfold armsScrolls, scrollTimers. simpl.
  rewrite Z.add_0_r, app_nil_r. auto 7.
Qed.

Lemma map_seq_offset {B : Type} (g : nat -> B) (a m : nat) :
  map g (seq a m) = map (fun k => g (a + k)%nat) (seq 0 m).
Proof.
  revert a g. induction m as [|m IH]; intros a g; simpl; [reflexivity|].
  rewrite Nat.add_0_r. f_equal.
  rewrite (IH (S a)), (IH 1%nat). apply map_ext. intros k. f_equal. lia.
Qed.

Lemma scrollTimers_app (b b' : Browser) (n m : nat) :
  clock b' = clock b -> nextHandle b' = nextHandle b + Z.of_nat n ->
  scrollTimers b (n + m) = scrollTimers b n ++ scrollTimers b' m.
Proof.
  intros Hc Hn. unfold scrollTimers.
  rewrite seq_app, map_app. f_equal.
  rewrite Hc, Hn. simpl. rewrite map_seq_offset.
  apply map_ext. intros k. f_equal. lia.
Qed.

Lemma armsScrolls_trans (st st1 st2 : St) (n m : nat) :
  armsScrolls st st1 n -> armsScrolls st1 st2 m -> armsScrolls st st2 (n + m).
Proof.
  unfold armsScrolls.
  intros (A1 & A2 & A3 & A4 & A5 & A6) (B1 & B2 & B3 & B4 & B5 & B6).
  rewrite (scrollTimers_app (browser st) (browser st1) n m A2 A3).
  rewrite B1, B2, B3, B4, B5, B6, A1, A3, A4, A5, A6, app_assoc.
  repeat split; try reflexivity; try assumption; lia.
Qed.

Lemma armsScrolls_handlesPositive (st st' : St) (n : nat) :
  armsScrolls st st' n -> handlesPositive (browser st) ->
  handlesPositive (browser st').
Proof.
  intros (_ & _ & A3 & A4 & _) [Hnext Hall]. unfold handlesPositive.
  rewrite A3, A4. split; [lia|].
  apply Forall_app. split; [exact Hall|].
  unfold scrollTimers. apply Forall_forall. intros t Ht.
  apply in_map_iff in Ht. destruct Ht as (k & <- & _). simpl. lia.
Qed.

Lemma ArmsAt_ret {A : Type} (c : ChatThreadComponent) (a : A) :
  ArmsAt c (ret a) 0.
Proof.
  intros st _ _. exists a, st. split; [reflexivity | apply armsScrolls_refl].
Qed.

Lemma ArmsAt_bind {A B : Type} (c : ChatThreadComponent)
      (m : M A) (k : A -> M B) (n1 n2 : nat) :
  ArmsAt c m n1 -> (forall a, ArmsAt c (k a) n2) -> ArmsAt c (bind m k) (n1 + n2).
Proof.
  intros Hm Hk st Hc Hpos.
  destruct (Hm st Hc Hpos) as (a & st1 & E1 & H1).
  assert (Hc1 : this st1 = c) by (destruct H1 as (-> & _); exact Hc).
  destruct (Hk a st1 Hc1 (armsScrolls_handlesPositive _ _ _ H1 Hpos))
    as (b & st2 & E2 & H2).
  exists b, st2. split; [unfold bind; rewrite E1; exact E2|].
  eapply armsScrolls_trans; eassumption.
Qed.

Lemma ArmsAt_mapM {A B : Type} (c : ChatThreadComponent) (f : A -> M B)
      (w : A -> nat) (l : list A) :
  (forall x, ArmsAt c (f x) (w x)) -> ArmsAt c (mapM f l) (list_sum (map w l)).
Proof.
  intros Hf. induction l as [|x r IH]; simpl.
  - apply ArmsAt_ret.
  - apply ArmsAt_bind; [apply Hf|]. intros y.
    rewrite <- (Nat.add_0_r (list_sum (map w r))).
    apply ArmsAt_bind; [apply IH|]. intros ys. apply ArmsAt_ret.
Qed.

Lemma ArmsAt_debounceScrollIntoView (c : ChatThreadComponent) :
  ArmsAt c debounceScrollIntoView 1.
Proof.
  intros st _ Hpos.
  destruct (debounceScrollIntoView_arms st Hpos)
    as (st' & E & (A1 & A2 & A3 & A4 & A5 & A6)).
  exists tt, st'. split; [exact E|].
  unfold armsScrolls, scrollTimers. simpl. rewrite Z.add_0_r. auto 7.
Qed.

Lemma ArmsAt_bind_getThis {B : Type} (c : ChatThreadComponent)
      (k : ChatThreadComponent -> M B) (n : nat) :
  ArmsAt c (k c) n -> ArmsAt c (bind getThis k) n.
Proof.
  intros Hk st Hc Hpos. unfold bind, getThis. rewrite Hc. apply Hk; assumption.
Qed.

Lemma ArmsAt_renderTextEntry (c : ChatThreadComponent) (textEntry : ChatMessageText) :
  ArmsAt c (renderTextEntry textEntry) (if isProcessingResponse c then 1 else 0).
Proof.
  unfold renderTextEntry. apply ArmsAt_bind_getThis.
  rewrite <- (Nat.add_0_r (if isProcessingResponse c then 1 else 0)%nat).
  apply ArmsAt_bind; [|intros; apply ArmsAt_ret].
  destruct (isProcessingResponse c);
    [apply ArmsAt_debounceScrollIntoView | apply ArmsAt_ret].
Qed.

Lemma ArmsAt_renderMessage (c : ChatThreadComponent) (entry : ChatThreadEntry) :
  ArmsAt c (renderMessage entry)
         (if isProcessingResponse c then List.length (text entry) else 0).
Proof.
  unfold renderMessage.
  change (if isProcessingResponse c then List.length (text entry) else 0)%nat
    with (0 + (if isProcessingResponse c then List.length (text entry) else 0))%nat.
  apply ArmsAt_bind.
  - destruct (isUserMessage entry); [apply ArmsAt_ret|].
    unfold renderResponseActions. apply ArmsAt_bind_getThis. apply ArmsAt_ret.
  - intros actions.
    rewrite <- (Nat.add_0_r (if isProcessingResponse c
                             then List.length (text entry) else 0)%nat).
    apply ArmsAt_bind; [|intros; apply ArmsAt_ret].
    replace (if isProcessingResponse c then List.length (text entry) else 0)%nat
      with (list_sum (map (fun _ : ChatMessageText =>
                             if isProcessingResponse c then 1 else 0)%nat
                          (text entry))).
    + apply ArmsAt_mapM. intros t. apply ArmsAt_renderTextEntry.
    + destruct (isProcessingResponse c);
        induction (text entry) as [|t r IH]; simpl; try reflexivity;
        rewrite IH; reflexivity.
Qed.

Lemma ArmsAt_render (c : ChatThreadComponent) :
  ArmsAt c render
         (if isProcessingResponse c
          then List.length (textBlocks (chatThread c)) else 0).
Proof.
  unfold render. apply ArmsAt_bind_getThis.
  rewrite <- (Nat.add_0_r (if isProcessingResponse c
                           then List.length (textBlocks (chatThread c)) else 0)%nat).
  apply ArmsAt_bind; [|intros; apply ArmsAt_ret].
  replace (if isProcessingResponse c
           then List.length (textBlocks (chatThread c)) else 0)%nat
    with (list_sum (map (fun entry =>
                           if isProcessingResponse c
                           then List.length (text entry) else 0)%nat
                        (chatThread c))).
  - apply ArmsAt_mapM. intros entry. apply ArmsAt_renderMessage.
  - unfold textBlocks. rewrite length_flat_map.
    destruct (isProcessingResponse c); [reflexivity|].
    induction (chatThread c) as [|e r IH]; simpl; [reflexivity | exact IH].
Qed.

(** X10: a render pass arms one scroll timer per text block of the
    transcript while [isProcessingResponse] is set, each due 500 units
    later, and none otherwise; it cancels no timer and leaves the
    component's fields, the clock, the footer and the trace as they
    were: it dispatches nothing and writes nothing to the clipboard. *)
Theorem render_arms_timer_per_text_block (st : St) :
  handlesPositive (browser st) ->
  exists tree st',
    render st = (Normal tree, st') /\
    armsScrolls st st'
      (if isProcessingResponse (this st)
       then List.length (textBlocks (chatThread (this st))) else 0).
Proof.
  intros Hpos. apply (ArmsAt_render (this st) st eq_refl Hpos).
Qed.

(** X12: while [isProcessingResponse] is set, with the footer in place
    and no timer pending, one render pass over a transcript of [n] text
    blocks leaves [n] timers pending, and once the quiet period has
    passed each of them has scrolled: [n] scrolls, not one. *)
Theorem render_while_processing_scrolls_per_block (el : HTMLElement) (st : St) :
  isProcessingResponse (this st) = true ->
  chatFooter (browser st) = defined el ->
  handlesPositive (browser st) ->
  pending (browser st) = [] ->
  exists tree st1 st2,
    render st = (Normal tree, st1) /\
    List.length (pending (browser st1)) =
      List.length (textBlocks (chatThread (this st))) /\
    advance 500 st1 = (Normal tt, st2) /\
    pending (browser st2) = [] /\
    scrollCount (browser st2) =
      (scrollCount (browser st) +
       List.length (textBlocks (chatThread (this st))))%nat.
Proof.
  intros Hproc Hfooter Hpos Hnone.
  destruct (ArmsAt_render (this st) st eq_refl Hpos) as (tree & st1 & E1 & Harms).
  rewrite Hproc in Harms.
  pose proof (armsScrolls_handlesPositive _ _ _ Harms Hpos) as Hpos1.
  destruct Harms as (A1 & A2 & A3 & A4 & A5 & A6).
  rewrite Hnone in A4. simpl in A4.
  assert (Hlen : List.length (pending (browser st1)) =
                 List.length (textBlocks (chatThread (this st)))).
  { rewrite A4. unfold scrollTimers. rewrite length_map, length_seq. reflexivity. }
  assert (Harmed : timersArmed (browser st1)).
  { unfold timersArmed. rewrite A2, A4. unfold scrollTimers.
    apply Forall_forall. intros t Ht.
    apply in_map_iff in Ht. destruct Ht as (k & <- & _). simpl. lia. }
  destruct (quiet_period_pays el st1) as (st2 & E2 & Hdone & Hcount).
  { split; [congruence|]. split; assumption. }
  exists tree, st1, st2.
  split; [exact E1|]. split; [exact Hlen|]. split; [exact E2|].
  split; [exact Hdone|].
  rewrite Hcount, Hlen. unfold scrollCount. rewrite A6. reflexivity.
Qed.


End ChatThread.

(** ** The model on concrete transcripts *)

(** C1 as stated fails: the list item rendered for a user entry that
    carries citations and a follow-up question shows a citation region
    and a follow-up region. *)
Lemma user_message_with_extras_renders_them :
  exists li,
    rendersAs sampleConfig "<svg/>" "<svg/>" "<svg/>"
              (withChatThread [userWithExtras (defined ["c1"])]) [li] /\
    isUserMessage (userWithExtras (defined ["c1"])) = true /\
    List.length (citationRegions li) = 1%nat /\
    List.length (followupRegions li) = 1%nat.
Proof.
  eexists. split; [reflexivity|]. vm_compute. auto.
Qed.

Lemma user_message_regions_witness :
  exists messages,
    rendersAs sampleConfig "<svg/>" "<svg/>" "<svg/>"
              (withChatThread [userWithExtras (defined ["c1"]);
                               botHello undefined undefined])
              messages /\
    Forall2
      (fun message li =>
         isUserMessage message = true ->
         actionButtonRows li = [] /\
         citationRegions li =
           (if presentAndNonEmpty (citations message)
            then [renderCitation sampleConfig (citations message)] else []) /\
         followupRegions li =
           (if presentAndNonEmpty (followupQuestions message)
            then [renderFollowupQuestions "<svg/>" (followupQuestions message)]
            else []))
      [userWithExtras (defined ["c1"]); botHello undefined undefined] messages.
Proof.
  exact (user_message_regions sampleConfig "<svg/>" "<svg/>" "<svg/>"
           (withChatThread [userWithExtras (defined ["c1"]);
                            botHello undefined undefined])).
Defined.

Lemma followup_region_and_click_witness :
  ("And then?" =? String.EmptyString)%string = false /\
  exists messages,
    rendersAs sampleConfig "<svg/>" "<svg/>" "<svg/>"
              (withChatThread [botHello (defined ["c1"]) (defined ["And then?"])])
              messages /\
    Forall2
      (fun message li =>
         (followupQuestions message = undefined \/
          followupQuestions message = defined [] ->
          followupRegions li = [] /\ followupItems li = []) /\
         (followupQuestions message = defined ["And then?"] ->
          exists region item,
            followupRegions li = [region] /\
            followupItems li = [item] /\
            hasTag "a" item = true /\
            childNodes item = [TextNode "And then?"] /\
            forall st0, exists st1,
              click item clickEvent st0 = (Normal tt, st1) /\
              extendsTrace st0 st1
                [PreventDefault clickEvent;
                 DispatchEvent {| type := "on-followup-click";
                                  detail := followupDetail "And then?";
                                  bubbles := true; composed := true |}]))
      [botHello (defined ["c1"]) (defined ["And then?"])] messages.
Proof.
  split; [reflexivity|].
  apply (followup_region_and_click sampleConfig "<svg/>" "<svg/>" "<svg/>"
           (withChatThread [botHello (defined ["c1"]) (defined ["And then?"])])
           "And then?" clickEvent).
  reflexivity.
Defined.

Lemma copy_clicks_idempotent_witness :
  (1 <= 3)%nat /\
  exists st' : St (Citation := string),
    repeatM 3 (runHandler onCopyResponseToClipboard clickEvent)
            (withChatThread [userHi (Citation := string);
                             botHello undefined undefined])
    = (Normal tt, st') /\
    isResponseCopied (this st') = true /\
    this st' =
      this (snd (copyResponseToClipboard
                   (withChatThread [userHi (Citation := string);
                                    botHello undefined undefined]))) /\
    clipboardWrites (browser st') =
      clipboardWrites
        (browser (withChatThread [userHi (Citation := string);
                                  botHello undefined undefined]))
      ++ repeat (response [userHi (Citation := string);
                           botHello undefined undefined]) 3.
Proof.
  split; [lia|].
  apply (copy_clicks_idempotent 3 clickEvent
           (withChatThread [userHi (Citation := string);
                            botHello undefined undefined])).
  lia.
Defined.

Lemma copy_on_empty_transcript_is_silent_witness :
  chatThread (this (initialSt (Citation := string))) = [] /\
  at_ (chatThread (this (initialSt (Citation := string)))) (-1) = undefined /\
  response (chatThread (this (initialSt (Citation := string)))) = undefined /\
  fst (runHandler onCopyResponseToClipboard clickEvent
                  (initialSt (Citation := string))) = Normal tt /\
  forall e,
    In (UncaughtError e)
       (trace (browser (snd (runHandler onCopyResponseToClipboard clickEvent
                                        (initialSt (Citation := string)))))) ->
    In (UncaughtError e) (trace (browser (initialSt (Citation := string)))).
Proof.
  split; [reflexivity|].
  apply (copy_on_empty_transcript_is_silent clickEvent initialSt).
  reflexivity.
Defined.

Lemma copy_on_empty_transcript_still_writes_witness :
  chatThread (this (initialSt (Citation := string))) = [] /\
  exists st' : St (Citation := string),
    runHandler onCopyResponseToClipboard clickEvent initialSt = (Normal tt, st') /\
    isResponseCopied (this st') = true /\
    trace (browser st') =
      trace (browser (initialSt (Citation := string))) ++ [ClipboardWriteText undefined].
Proof.
  split; [reflexivity|].
  apply (copy_on_empty_transcript_still_writes clickEvent initialSt).
  reflexivity.
Defined.

Lemma scheduled_scroll_fires_witness :
  handlesPositive (browser (initialSt (Citation := string))) /\
  pending (browser (initialSt (Citation := string))) = [] /\
  exists st1 st2 st3 : St (Citation := string),
    debounceScrollIntoView initialSt = (Normal tt, st1) /\
    advance 499 st1 = (Normal tt, st2) /\
    trace (browser st2) = [] /\
    advance 500 st1 = (Normal tt, st3) /\
    pending (browser st3) = [] /\
    trace (browser st3) =
      [ScrollIntoView footer {| behavior := smooth; block := center |}].
Proof.
  assert (Hpos : handlesPositive (browser (initialSt (Citation := string)))).
  { split; [reflexivity | constructor]. }
  split; [exact Hpos|]. split; [reflexivity|].
  exact (proj2 (scheduled_scroll_fires
                  {| handle := 1; due := 500; callback := scrollFooterIntoView |}
                  initialSt)
               Hpos eq_refl).
Defined.

Lemma copy_writes_last_block_witness :
  chatThread (this (withChatThread [userHi (Citation := string);
                                     botHello undefined undefined])) =
    [userHi] ++ [botHello undefined undefined] /\
  exists st' : St (Citation := string),
    runHandler onCopyResponseToClipboard clickEvent
               (withChatThread [userHi; botHello undefined undefined])
    = (Normal tt, st') /\
    trace (browser st') = [ClipboardWriteText (defined "Hello!")] /\
    pending (browser st') = [].
Proof.
  split; [reflexivity|].
  exact (copy_writes_last_block clickEvent
           (withChatThread [userHi; botHello undefined undefined])
           [userHi] (botHello undefined undefined) eq_refl).
Defined.

Lemma render_arms_timer_per_text_block_witness :
  handlesPositive (browser (streamingSt (Citation := string))) /\
  exists tree (st' : St (Citation := string)),
    render sampleConfig "<svg/>" "<svg/>" "<svg/>" streamingSt = (Normal tree, st') /\
    armsScrolls streamingSt st' 2.
Proof.
  assert (Hpos : handlesPositive (browser (streamingSt (Citation := string)))).
  { split; [reflexivity | constructor]. }
  split; [exact Hpos|].
  exact (render_arms_timer_per_text_block sampleConfig "<svg/>" "<svg/>" "<svg/>"
           streamingSt Hpos).
Defined.

Lemma burst_fires_every_request_witness :
  chatFooter (browser (initialSt (Citation := string))) = defined footer /\
  handlesPositive (browser (initialSt (Citation := string))) /\
  pending (browser (initialSt (Citation := string))) = [] /\
  exists st1 st2 : St (Citation := string),
    burst [100; 0; 499]%nat initialSt = (Normal tt, st1) /\
    advance 500 st1 = (Normal tt, st2) /\
    scrollCount (browser st2) = 4%nat.
Proof.
  assert (Hpos : handlesPositive (browser (initialSt (Citation := string)))).
  { split; [reflexivity | constructor]. }
  split; [reflexivity|]. split; [exact Hpos|]. split; [reflexivity|].
  exact (burst_fires_every_request footer [100; 0; 499]%nat initialSt
           eq_refl Hpos eq_refl).
Defined.

Lemma render_while_processing_scrolls_per_block_witness :
  isProcessingResponse (this (streamingSt (Citation := string))) = true /\
  chatFooter (browser (streamingSt (Citation := string))) = defined footer /\
  handlesPositive (browser (streamingSt (Citation := string))) /\
  pending (browser (streamingSt (Citation := string))) = [] /\
  exists tree (st1 st2 : St (Citation := string)),
    render sampleConfig "<svg/>" "<svg/>" "<svg/>" streamingSt = (Normal tree, st1) /\
    List.length (pending (browser st1)) = 2%nat /\
    advance 500 st1 = (Normal tt, st2) /\
    pending (browser st2) = [] /\
    scrollCount (browser st2) = 2%nat.
Proof.
  assert (Hpos : handlesPositive (browser (streamingSt (Citation := string)))).
  { split; [reflexivity | constructor]. }
  split; [reflexivity|]. split; [reflexivity|]. split; [exact Hpos|].
  split; [reflexivity|].
  exact (render_while_processing_scrolls_per_block
           sampleConfig "<svg/>" "<svg/>" "<svg/>" footer streamingSt
           eq_refl eq_refl Hpos eq_refl).
Defined.
